(** * Verification of [auto-stop-idle/autostop.py]

    A shallow embedding of the SageMaker notebook auto-stop script and the
    properties its specification states about it.

    Layout:
    - [Py]       : the fragment of the Python runtime the script relies on
                   (exceptions, printing, call binding, truthiness);
    - [Getopt]   : the standard library's [getopt.getopt];
    - [Datetime] : naive datetimes, their difference and [total_seconds],
                   [strptime]/[strftime] for the script's one format;
    - [Autostop] : the script itself, statement by statement;
    - [Samples]  : inputs for concrete runs;
    - [PyFacts], [GetoptFacts], [DatetimeFacts] : lemmas on the above;
    - [AutostopViews] : views of the script's data for further properties;
    - [AutostopSpec] : the properties of the script;
    - [Runs]     : the script evaluated on the sample inputs;
    - [AutostopExtra], [ExtraRuns] : further properties and runs. *)

From Stdlib Require Import ZArith QArith List String Ascii Bool Lia.
Import ListNotations.

Set Implicit Arguments.

(* ================================================================== *)
(** ** Python runtime fragment *)
(* ================================================================== *)

Module Py.

Local Open Scope string_scope.

(** Exceptions the script can meet.  [GetoptError] carries no message: the
    script's handler ignores it.  [SystemExit] is what [exit(code)] raises. *)
Inductive exn : Type :=
| GetoptError
| TypeError
| ValueError
| SystemExit (code : Z).

Inductive outcome (A : Type) : Type :=
| Ok (a : A)
| Raise (e : exn).

Arguments Ok {A} a.
Arguments Raise {A} e.

(** What a run does to the outside world, in order. *)
Inductive event : Type :=
| Print (text : string)
| ReadFile (path : string)
| HttpGet (url : string)
| DescribeNotebookInstance (name : string)
| ListTags (arn : string)
| StopNotebookInstance (name : string).

(** A computation: the events it emitted, then its result or the exception
    that ended it. *)
Definition M (A : Type) : Type := (list event * outcome A)%type.

Definition ret {A} (a : A) : M A := ([], Ok a).

Definition bind {A B} (c : M A) (k : A -> M B) : M B :=
  match c with
  | (t, Ok a) => let (t', r) := k a in ((t ++ t')%list, r)
  | (t, Raise e) => (t, Raise e)
  end.

Definition raise {A} (e : exn) : M A := ([], Raise e).

Definition emit (e : event) : M unit := ([e], Ok tt).

Definition lift {A} (o : outcome A) : M A := ([], o).

(** Every event but the stop request. *)
Definition not_stop (e : event) : Prop :=
  match e with
  | StopNotebookInstance _ => False
  | _ => True
  end.

Definition trace {A} (c : M A) : list event := fst c.
Definition result {A} (c : M A) : outcome A := snd c.

(** [try: body except GetoptError: handler] *)
Definition try_except_GetoptError {A} (body handler : M A) : M A :=
  match body with
  | (t, Raise GetoptError) => let (t', r) := handler in ((t ++ t')%list, r)
  | other => other
  end.

Definition print (text : string) : M unit := emit (Print text).

(** The [exit] builtin. *)
Definition exit {A} (code : Z) : M A := raise (SystemExit code).

(** Process exit status of a finished run: 0 on normal completion, the code
    of a [SystemExit], 1 for any other uncaught exception. *)
Definition exit_status {A} (c : M A) : Z :=
  match result c with
  | Ok _ => 0
  | Raise (SystemExit n) => n
  | Raise _ => 1
  end.

(** Values passed as call arguments. *)
Inductive pyval : Type :=
| VNone
| VInt (n : Z)
| VStr (s : string).

(** [None] and [0] are falsy, every other integer is truthy. *)
Definition truthy (v : pyval) : bool :=
  match v with
  | VNone => false
  | VInt n => negb (Z.eqb n 0)
  | VStr s => negb (String.eqb s "")
  end.

(** Binding of positional arguments to a function's parameters: a call with
    the wrong number of arguments raises [TypeError] before the body runs. *)
Definition def1 {A B} (body : A -> M B) (args : list A) : M B :=
  match args with
  | [a] => body a
  | _ => raise TypeError
  end.

Definition def2 {A B} (body : A -> A -> M B) (args : list A) : M B :=
  match args with
  | [a; b] => body a b
  | _ => raise TypeError
  end.

(** *** String helpers *)

Definition dquote : string := String "034"%char "".
Definition nl : string := String "010"%char "".

Definition startswith (s p : string) : bool := String.prefix p s.

Fixpoint endswith_char (s : string) (c : ascii) : bool :=
  match s with
  | EmptyString => false
  | String a EmptyString => Ascii.eqb a c
  | String _ rest => endswith_char rest c
  end.

(** [s[:-1]] *)
Fixpoint drop_last (s : string) : string :=
  match s with
  | EmptyString => EmptyString
  | String _ EmptyString => EmptyString
  | String a rest => String a (drop_last rest)
  end.

Definition is_digit (c : ascii) : bool :=
  let n := nat_of_ascii c in (48 <=? n)%nat && (n <=? 57)%nat.

Definition digit_val (c : ascii) : Z := Z.of_nat (nat_of_ascii c) - 48.

Definition digit_char (d : Z) : ascii := ascii_of_nat (Z.to_nat (d + 48)).

(** Whitespace [int()] strips: space and the controls 9-13. *)
Definition is_space (c : ascii) : bool :=
  let n := nat_of_ascii c in
  (n =? 32)%nat || ((9 <=? n) && (n <=? 13))%nat.

Fixpoint lstrip (s : string) : string :=
  match s with
  | String c rest => if is_space c then lstrip rest else s
  | EmptyString => EmptyString
  end.

(** Digits of a decimal literal, underscores allowed only between two
    digits.  [acc] is the value read so far, [prev_digit] tells whether the
    previous character was a digit.  Trailing whitespace may follow. *)
Fixpoint int_digits (s : string) (acc : Z) (prev_digit : bool) : option Z :=
  match s with
  | EmptyString => if prev_digit then Some acc else None
  | String c rest =>
      if is_digit c then int_digits rest (10 * acc + digit_val c) true
      else if Ascii.eqb c "_" then
        if prev_digit then
          match rest with
          | String d _ => if is_digit d then int_digits rest acc false else None
          | EmptyString => None
          end
        else None
      else if is_space c then
        if prev_digit then
          match lstrip rest with EmptyString => Some acc | _ => None end
        else None
      else None
  end.

(** A model of the builtin [int(s)] on ASCII text; [None] stands for
    [ValueError].  Digits outside ASCII and the interpreter's limit on the
    length of a literal are not modelled. *)
Definition int_ascii (s : string) : option Z :=
  match lstrip s with
  | String "-" rest => option_map Z.opp (int_digits rest 0 false)
  | String "+" rest => int_digits rest 0 false
  | body => int_digits body 0 false
  end.

End Py.

Module PyNotations.
Notation "x <- c ;; k" := (Py.bind c (fun x => k))
  (at level 61, c at next level, right associativity).
Notation "c ;;; k" := (Py.bind c (fun _ => k))
  (at level 61, right associativity).
Notation "' pat <- c ;; k" := (Py.bind c (fun x => match x with pat => k end))
  (at level 61, pat pattern, c at next level, right associativity).
End PyNotations.

(* ================================================================== *)
(** ** [getopt.getopt] *)
(* ================================================================== *)

Module Getopt.

Import Py.
Local Open Scope string_scope.

Definition optlist := list (string * string).

(** [opts.append((name, value))] *)
Definition append (opts : optlist) (name value : string) : optlist :=
  (opts ++ [(name, value)])%list.

(** [short_has_arg]: scan [shortopts] for the letter; it takes an argument
    when a colon follows.  A colon itself is never an option letter. *)
Fixpoint short_has_arg (opt : ascii) (shortopts : string) : outcome bool :=
  match shortopts with
  | EmptyString => Raise GetoptError
  | String c rest =>
      if Ascii.eqb opt c && negb (Ascii.eqb c ":")
      then Ok (startswith rest ":")
      else short_has_arg opt rest
  end.

(** [do_shorts]: one cluster of short options, [optstring] being the text
    after the dash. An option taking an argument swallows the rest of the
    cluster, or the next command-line word when the cluster is exhausted. *)
Fixpoint do_shorts (opts : optlist) (optstring shortopts : string)
    (args : list string) : outcome (optlist * list string) :=
  match optstring with
  | EmptyString => Ok (opts, args)
  | String opt optstring' =>
      match short_has_arg opt shortopts with
      | Raise e => Raise e
      | Ok true =>
          match optstring' with
          | EmptyString =>
              match args with
              | [] => Raise GetoptError
              | a :: args' => Ok (append opts (String "-" (String opt "")) a, args')
              end
          | _ => Ok (append opts (String "-" (String opt "")) optstring', args)
          end
      | Ok false =>
          do_shorts (append opts (String "-" (String opt "")) "") optstring' shortopts args
      end
  end.

(** [long_has_args]: exact match first, then a unique prefix. *)
Definition long_has_args (opt : string) (longopts : list string)
    : outcome (bool * string) :=
  let possibilities := filter (fun o => startswith o opt) longopts in
  match possibilities with
  | [] => Raise GetoptError
  | _ =>
      if existsb (String.eqb opt) possibilities then Ok (false, opt)
      else if existsb (String.eqb (opt ++ "=")) possibilities then Ok (true, opt)
      else
        match possibilities with
        | [unique_match] =>
            if endswith_char unique_match "="
            then Ok (true, drop_last unique_match)
            else Ok (false, unique_match)
        | _ => Raise GetoptError
        end
  end.

(** [do_longs]: [opt] is the word after the two dashes. *)
Definition do_longs (opts : optlist) (opt : string) (longopts args : list string)
    : outcome (optlist * list string) :=
  let '(opt, optarg) :=
    match String.index 0 "=" opt with
    | None => (opt, None)
    | Some i => (substring 0 i opt,
                 Some (substring (S i) (String.length opt - S i) opt))
    end in
  match long_has_args opt longopts with
  | Raise e => Raise e
  | Ok (has_arg, opt) =>
      if has_arg then
        match optarg with
        | None =>
            match args with
            | [] => Raise GetoptError
            | a :: args' => Ok (append opts ("--" ++ opt) a, args')
            end
        | Some v => Ok (append opts ("--" ++ opt) v, args)
        end
      else
        match optarg with
        | Some _ => Raise GetoptError
        | None => Ok (append opts ("--" ++ opt) "", args)
        end
  end.

(** The [while] loop of [getopt].  Every iteration removes at least one word,
    so [length args] iterations are enough; the [O] branch is never taken
    with a word left (see [getopt_loop_fuel]). *)
Fixpoint getopt_loop (fuel : nat) (opts : optlist) (args : list string)
    (shortopts : string) (longopts : list string)
    : outcome (optlist * list string) :=
  match args with
  | [] => Ok (opts, args)
  | a :: rest =>
      if startswith a "-" && negb (String.eqb a "-") then
        if String.eqb a "--" then Ok (opts, rest)
        else
          match fuel with
          | O => Ok (opts, args)
          | S fuel' =>
              let step :=
                if startswith a "--"
                then do_longs opts (substring 2 (String.length a - 2) a) longopts rest
                else do_shorts opts (substring 1 (String.length a - 1) a) shortopts rest in
              match step with
              | Raise e => Raise e
              | Ok (opts', args') => getopt_loop fuel' opts' args' shortopts longopts
              end
          end
      else Ok (opts, args)
  end.

Definition getopt (args : list string) (shortopts : string)
    (longopts : list string) : outcome (optlist * list string) :=
  getopt_loop (List.length args) [] args shortopts longopts.

End Getopt.

(* ================================================================== *)
(** ** Naive datetimes *)
(* ================================================================== *)

Module Datetime.

Import Py.
Local Open Scope Z_scope.

(** A naive [datetime]: wall-clock fields, no time zone. *)
Record datetime : Type := mkdatetime {
  year : Z;
  month : Z;
  day : Z;
  hour : Z;
  minute : Z;
  second : Z;
  microsecond : Z
}.

Definition is_leap (y : Z) : bool :=
  (y mod 4 =? 0) && (negb (y mod 100 =? 0) || (y mod 400 =? 0)).

Definition days_in_month (y m : Z) : Z :=
  if m =? 2 then (if is_leap y then 29 else 28)
  else if (m =? 4) || (m =? 6) || (m =? 9) || (m =? 11) then 30
  else 31.

(** Days in the year before the first of month [m]. *)
Definition days_before_month (y m : Z) : Z :=
  nth (Z.to_nat m) [0; 0; 31; 59; 90; 120; 151; 181; 212; 243; 273; 304; 334] 0
  + (if (2 <? m) && is_leap y then 1 else 0).

Definition days_before_year (y : Z) : Z :=
  let p := y - 1 in p * 365 + p / 4 - p / 100 + p / 400.

(** Proleptic Gregorian ordinal, 0001-01-01 being day 1. *)
Definition toordinal (d : datetime) : Z :=
  days_before_year (year d) + days_before_month (year d) (month d) + day d.

Definition between (lo x hi : Z) : bool := (lo <=? x) && (x <=? hi).

(** The values the [datetime] constructor accepts. *)
Definition valid (d : datetime) : bool :=
  between 1 (year d) 9999 && between 1 (month d) 12
  && between 1 (day d) (days_in_month (year d) (month d))
  && between 0 (hour d) 23 && between 0 (minute d) 59
  && between 0 (second d) 59 && between 0 (microsecond d) 999999.

(** A [timedelta], held as its total number of microseconds (a normalised
    days/seconds/microseconds triple determines it and is determined by it). *)
Definition timedelta : Type := Z.

(** [a - b] on naive datetimes. *)
Definition sub (a b : datetime) : timedelta :=
  let secs (d : datetime) := second d + minute d * 60 + hour d * 3600 in
  ((toordinal a - toordinal b) * 86400 + (secs a - secs b)) * 1000000
  + (microsecond a - microsecond b).

(** *** Floats

    [total_seconds()] is the true division of two integers, which yields the
    binary64 number nearest to the quotient (ties to even).  The float is
    held as the rational it denotes. *)

Definition round_half_even (a b : Z) : Z :=
  let q := a / b in
  match 2 * (a mod b) ?= b with
  | Lt => q
  | Gt => q + 1
  | Eq => if Z.even q then q else q + 1
  end.

(** Exponent [k] with [2^k <= a/d < 2^(k+1)], for [0 < a] and [0 < d]. *)
Definition binade (a d : Z) : Z :=
  if d <=? a then Z.log2 (a / d) else - Z.log2_up ((d + a - 1) / a).

(** The binary64 nearest to [n/d], [0 < d]: a 53-bit significand [m] scaled
    by [2^e].  The quotients met here are far from the subnormal and the
    overflow range. *)
Definition true_divide (n d : Z) : Q :=
  if n =? 0 then 0%Q
  else
    let a := Z.abs n in
    let e := binade a d - 52 in
    let v :=
      if 0 <=? e
      then inject_Z (round_half_even a (d * 2 ^ e) * 2 ^ e)
      else Qmake (round_half_even (a * 2 ^ (- e)) d) (Z.to_pos (2 ^ (- e))) in
    if n <? 0 then Qopp v else v.

Definition total_seconds (td : timedelta) : Q := true_divide td 1000000.

(** [x > n] for a float [x] and an integer [n]: Python compares the two
    exactly. *)
Definition float_gt_int (x : Q) (n : Z) : bool :=
  negb (Qle_bool x (inject_Z n)).

(** *** Text *)

Local Open Scope string_scope.

(** [n] printed on exactly [width] decimal digits, as [%0<width>d] does
    for [0 <= n < 10^width]. *)
Fixpoint zpad (width : nat) (n : Z) : string :=
  match width with
  | O => ""
  | S w => zpad w (n / 10) ++ String (digit_char (n mod 10)) ""
  end.

Fixpoint all_digits (s : string) : bool :=
  match s with
  | EmptyString => true
  | String c rest => is_digit c && all_digits rest
  end.

Fixpoint digits_value (s : string) (acc : Z) : Z :=
  match s with
  | EmptyString => acc
  | String c rest => digits_value rest (10 * acc + digit_val c)
  end.

(** A field of [lo..hi] digits whose value lies in [vlo..vhi]. *)
Definition field (lo hi : nat) (vlo vhi : Z) (s : string) : option Z :=
  let n := String.length s in
  if (lo <=? n)%nat && (n <=? hi)%nat && all_digits s
     && between vlo (digits_value s 0) vhi
  then Some (digits_value s 0) else None.

(** Split at the first occurrence of a separator satisfying [sep]. *)
Fixpoint split_at (sep : ascii -> bool) (s : string) : option (string * string) :=
  match s with
  | EmptyString => None
  | String c rest =>
      if sep c then Some ("", rest)
      else match split_at sep rest with
           | Some (a, b) => Some (String c a, b)
           | None => None
           end
  end.

Definition is_char (c : ascii) (x : ascii) : bool := Ascii.eqb x c.

(** Letters of the format are matched without regard to case. *)
Definition is_letter (lower upper : ascii) (x : ascii) : bool :=
  Ascii.eqb x lower || Ascii.eqb x upper.

(** The [%d] field also admits a space before a single non-zero digit. *)
Definition day_field (s : string) : option Z :=
  match s with
  | String " " rest => field 1 1 1 9 rest
  | _ => field 1 2 1 31 s
  end.

(** Right-pad the fraction with zeros to six digits. *)
Definition fraction_value (s : string) : Z :=
  digits_value s 0 * 10 ^ Z.of_nat (6 - String.length s).

Definition bind_opt {A B} (o : option A) (k : A -> option B) : option B :=
  match o with Some a => k a | None => None end.

(** A model of [datetime.strptime(s, "%Y-%m-%dT%H:%M:%S.%fz")] on ASCII
    text; [None] stands for [ValueError].  The fields are cut at the
    format's literal characters, each must have the shape its directive
    admits, and the whole must be a date the constructor accepts. *)
Definition strptime (s : string) : option datetime :=
  bind_opt (split_at (is_char "-") s) (fun '(fY, s) =>
  bind_opt (split_at (is_char "-") s) (fun '(fm, s) =>
  bind_opt (split_at (is_letter "t" "T") s) (fun '(fd, s) =>
  bind_opt (split_at (is_char ":") s) (fun '(fH, s) =>
  bind_opt (split_at (is_char ":") s) (fun '(fM, s) =>
  bind_opt (split_at (is_char ".") s) (fun '(fS, s) =>
  bind_opt (split_at (is_letter "z" "Z") s) (fun '(ff, s) =>
  if negb (String.eqb s "") then None else
  bind_opt (field 4 4 0 9999 fY) (fun Y =>
  bind_opt (field 1 2 1 12 fm) (fun m =>
  bind_opt (day_field fd) (fun d =>
  bind_opt (field 1 2 0 23 fH) (fun H =>
  bind_opt (field 1 2 0 59 fM) (fun M =>
  bind_opt (field 1 2 0 61 fS) (fun S =>
  bind_opt (field 1 6 0 999999 ff) (fun _ =>
  let dt := mkdatetime Y m d H M S (fraction_value ff) in
  if valid dt then Some dt else None)))))))))))))).

(** [d.strftime("%Y-%m-%dT%H:%M:%S.%fz")], the year on four digits. *)
Definition strftime (d : datetime) : string :=
  zpad 4 (year d) ++ "-" ++ zpad 2 (month d) ++ "-" ++ zpad 2 (day d) ++ "T"
  ++ zpad 2 (hour d) ++ ":" ++ zpad 2 (minute d) ++ ":" ++ zpad 2 (second d)
  ++ "." ++ zpad 6 (microsecond d) ++ "z".

(** [str(d)]: ISO format with a space, the fraction only when non-zero. *)
Definition str (d : datetime) : string :=
  zpad 4 (year d) ++ "-" ++ zpad 2 (month d) ++ "-" ++ zpad 2 (day d) ++ " "
  ++ zpad 2 (hour d) ++ ":" ++ zpad 2 (minute d) ++ ":" ++ zpad 2 (second d)
  ++ (if (microsecond d =? 0)%Z then "" else "." ++ zpad 6 (microsecond d)).

End Datetime.

(* ================================================================== *)
(** ** The script *)
(* ================================================================== *)

Module Autostop.

Import Py PyNotations.
Local Open Scope string_scope.

Record NotebookResource : Type := mkNotebookResource {
  arn : string;
  name : string
}.

Definition DEFAULT_TAG_KEY : string := "AutoStopTimeOut".

Definition usageInfo : string :=
  "Usage:" ++ nl
  ++ "This scripts checks if a notebook is idle for X seconds if it does, it'll stop the notebook:" ++ nl
  ++ "python autostop.py [--time <time_in_seconds>] [--port <jupyter_port>] [--ignore-connections]" ++ nl
  ++ "Type " ++ dquote ++ "python autostop.py -h" ++ dquote ++ " for available options." ++ nl.

Definition helpInfo : string :=
  "-t, --time" ++ nl
  ++ "    Auto stop time in seconds" ++ nl
  ++ "-p, --port" ++ nl
  ++ "    jupyter port" ++ nl
  ++ "-c --ignore-connections" ++ nl
  ++ "    Stop notebook once idle, ignore connected users" ++ nl
  ++ "-h, --help" ++ nl
  ++ "    Help information" ++ nl.

(** One entry of the sessions API's answer: the three fields of its
    [kernel] object the script reads. *)
Record Session : Type := mkSession {
  execution_state : string;
  connections : Z;
  last_activity : string
}.

(** One resource tag. *)
Record Tag : Type := mkTag {
  Key : string;
  Value : string
}.

(** Everything a run reads from outside: the command line, the metadata
    file, the answers of the two services and the clock.  [eager_annotations]
    tells whether the interpreter evaluates parameter annotations when a
    [def] executes. *)
Record World : Type := mkWorld {
  argv : list string;
  eager_annotations : bool;
  resource_metadata : NotebookResource;
  sessions : list Session;
  LastModifiedTime : Datetime.datetime;
  Tags : list Tag;
  now : Datetime.datetime
}.

(** The module-level variables set while reading the command line. *)
Record Globals : Type := mkGlobals {
  port : string;
  ignore_connections : bool;
  idle_timeout : pyval
}.

Definition initial_idle : bool := true.
Definition initial_globals : Globals := mkGlobals "8443" false VNone.
Definition default_idle_timeout : Z := 3600.

Definition shortopts : string := "ht:p:c".
Definition longopts : list string := ["help"; "time="; "port="; "ignore-connections"].

(** [opt in (a, b)] *)
Definition in2 (opt a b : string) : bool := String.eqb opt a || String.eqb opt b.

Section Script.

(** The builtin [int] on a string ([None]: [ValueError]), and
    [strptime]/[strftime] for the format ["%Y-%m-%dT%H:%M:%S.%fz"]
    ([None]: [ValueError]).  The script is verified for whatever these
    library routines compute; [Py.int_ascii], [Datetime.strptime] and
    [Datetime.strftime] are the instances used for concrete runs. *)
Variable int : string -> option Z.
Variable strptime : string -> option Datetime.datetime.
Variable strftime : Datetime.datetime -> string.

(** *** Lines 48-64: the command line *)

(** The body of [for opt, arg in opts]. *)
Fixpoint for_opts (opts : Getopt.optlist) (g : Globals) : M Globals :=
  match opts with
  | [] => ret g
  | (opt, arg) :: rest =>
      (if in2 opt "-h" "--help" then print helpInfo ;;; exit 0 else ret tt) ;;;
      g <- (if in2 opt "-t" "--time" then
              match int arg with
              | Some n => ret (mkGlobals (port g) (ignore_connections g) (VInt n))
              | None => raise ValueError
              end
            else ret g) ;;
      let g := if in2 opt "-p" "--port"
               then mkGlobals arg (ignore_connections g) (idle_timeout g) else g in
      let g := if in2 opt "-c" "--ignore-connections"
               then mkGlobals (port g) true (idle_timeout g) else g in
      for_opts rest g
  end.

(** An option of the parsed list is acceptable to the [for] loop when it is
    not a [-t]/[--time] whose value [int] rejects. *)
Definition time_value_ok (oa : string * string) : Prop :=
  in2 (fst oa) "-t" "--time" = true -> int (snd oa) <> None.

Definition parse_command_line (sys_argv : list string) : M Globals :=
  try_except_GetoptError
    ('(opts, args) <- lift (Getopt.getopt sys_argv shortopts longopts) ;;
     (if (List.length opts =? 0)%nat then raise GetoptError else ret tt) ;;;
     for_opts opts initial_globals)
    (print usageInfo ;;; exit 1).

(** *** Lines 67-74 *)

Definition is_idle (now : Datetime.datetime) : list pyval -> M bool :=
  def2 (fun last_activity idle_timeout =>
    match last_activity with
    | VStr s =>
        match strptime s with
        | None => raise ValueError
        | Some last_activity =>
            let elapsed := Datetime.total_seconds (Datetime.sub now last_activity) in
            match idle_timeout with
            | VInt t =>
                if Datetime.float_gt_int elapsed t then
                  print ("Notebook is idle. Last activity time =  "
                         ++ Datetime.str last_activity) ;;;
                  ret true
                else
                  print ("Notebook is not idle. Last activity time =  "
                         ++ Datetime.str last_activity) ;;;
                  ret false
            | _ => raise TypeError
            end
        end
    | _ => raise TypeError
    end).

(** *** Lines 77-83 *)

Definition get_notebook_resource (w : World) : M NotebookResource :=
  emit (ReadFile "/opt/ml/metadata/resource-metadata.json") ;;;
  ret (resource_metadata w).

(** *** Lines 86-89 *)

Fixpoint find_timeout_tag (tags : list Tag) : M pyval :=
  match tags with
  | [] => ret VNone
  | tag :: rest =>
      if String.eqb (Key tag) DEFAULT_TAG_KEY then
        match int (Value tag) with
        | Some n => ret (VInt n)
        | None => raise ValueError
        end
      else find_timeout_tag rest
  end.

Definition get_notebook_timeout_tag : list (list Tag) -> M pyval :=
  def1 find_timeout_tag.

(** *** Lines 96-114: the sessions

    [check] is the function the name [is_idle] is bound to when the loop
    runs; the script binds it to [is_idle] above. *)

Definition session_body (check : list pyval -> M bool) (ignore : bool)
    (notebook : Session) (idle : bool) : M bool :=
  if String.eqb (execution_state notebook) "idle" then
    if negb ignore then
      if (connections notebook =? 0)%Z then
        r <- check [VStr (last_activity notebook)] ;;
        if negb r then ret false else ret idle
      else
        print "Notebook idle state set as False because no kernel has been detected." ;;;
        ret false
    else
      r <- check [VStr (last_activity notebook)] ;;
      if negb r then
        print "Notebook idle state set as False since kernel connections are ignored." ;;;
        ret false
      else ret idle
  else
    print ("Notebook is not idle: " ++ execution_state notebook) ;;;
    ret false.

Fixpoint session_loop (check : list pyval -> M bool) (ignore : bool)
    (data : list Session) (idle : bool) : M bool :=
  match data with
  | [] => ret idle
  | notebook :: rest =>
      idle <- session_body check ignore notebook idle ;;
      session_loop check ignore rest idle
  end.

(** A session passes when none of the loop's assignments fires on it: its
    kernel is idle, it has no connection unless connections are ignored, and
    the idle check returns true. *)
Definition session_passes (check : list pyval -> M bool) (ignore : bool)
    (notebook : Session) : Prop :=
  execution_state notebook = "idle"
  /\ (ignore = false -> connections notebook = 0%Z)
  /\ result (check [VStr (last_activity notebook)]) = Ok true.

(** *** Lines 115-131: no session *)

Definition instance_check (w : World) (g : Globals)
    (notebook_resource : NotebookResource) (idle : bool) : M bool :=
  emit (DescribeNotebookInstance (name notebook_resource)) ;;;
  let uptime := LastModifiedTime w in
  emit (ListTags (arn notebook_resource)) ;;;
  idle_timeout <- (if negb (truthy (idle_timeout g))
                   then get_notebook_timeout_tag []
                   else ret (idle_timeout g)) ;;
  let idle_timeout := if negb (truthy idle_timeout)
                      then VInt default_idle_timeout else idle_timeout in
  r <- is_idle (now w) [VStr (strftime uptime); idle_timeout] ;;
  if negb r then
    print "Notebook idle state set as False since no sessions detected." ;;;
    ret false
  else ret idle.

(** *** Lines 133-140 *)

Definition stop_decision (notebook_resource : NotebookResource) (idle : bool)
    : M unit :=
  if idle then
    print "Closing idle notebook" ;;;
    emit (StopNotebookInstance (name notebook_resource))
  else print "Notebook not idle. Pass.".

(** *** The run *)

(** Line 86: with eager annotations the [def] evaluates [List[str, str]],
    which [typing] rejects. *)
Definition def_get_notebook_timeout_tag (w : World) : M unit :=
  if eager_annotations w then raise TypeError else ret tt.

(** Lines 43-131: everything up to the value of [idle] that line 133 tests. *)
Definition idle_determination (w : World) : M (NotebookResource * bool) :=
  g <- parse_command_line (argv w) ;;
  def_get_notebook_timeout_tag w ;;;
  notebook_resource <- get_notebook_resource w ;;
  emit (HttpGet ("https://localhost:" ++ port g ++ "/api/sessions")) ;;;
  let data := sessions w in
  idle <- (if (0 <? List.length data)%nat
           then session_loop (is_idle (now w)) (ignore_connections g) data initial_idle
           else instance_check w g notebook_resource initial_idle) ;;
  ret (notebook_resource, idle).

Definition main (w : World) : M unit :=
  '(notebook_resource, idle) <- idle_determination w ;;
  stop_decision notebook_resource idle.

End Script.

(** The script run with the modelled library routines. *)
Definition run (w : World) : M unit :=
  main int_ascii Datetime.strptime Datetime.strftime w.

End Autostop.

(* ================================================================== *)
(** ** Sample inputs *)
(* ================================================================== *)

Module Samples.

Import Py Autostop.
Local Open Scope string_scope.
Local Open Scope Z_scope.

Definition notebook : NotebookResource :=
  mkNotebookResource "arn:aws:sagemaker:eu-west-1:000000000000:notebook-instance/nb" "nb".

Definition midnight : Datetime.datetime := Datetime.mkdatetime 2024 1 1 0 0 0 0.
Definition two_hours_later : Datetime.datetime := Datetime.mkdatetime 2024 1 1 2 0 0 5.

(** A world with the given command line, sessions and tags; the instance
    was last modified at [midnight] and the clock reads [two_hours_later]. *)
Definition world (args : list string) (data : list Session) (tags : list Tag)
    : World :=
  mkWorld args false notebook data midnight tags two_hours_later.

Definition quiet_session : Session :=
  mkSession "idle" 0 "2024-01-01T00:00:00.000000Z".

(** The same session with five clients connected. *)
Definition watched_session : Session :=
  mkSession "idle" 5 "2024-01-01T00:00:00.000000Z".

(** A session whose kernel is executing. *)
Definition busy_session : Session :=
  mkSession "busy" 1 "2024-01-01T01:59:59.000000Z".

Definition timeout_tag : Tag := mkTag "AutoStopTimeOut" "600".

Definition sessions_url : string := "https://localhost:8443/api/sessions".
Definition metadata_path : string := "/opt/ml/metadata/resource-metadata.json".

(** An idle check that finds every kernel idle. *)
Definition always_idle (args : list pyval) : M bool := ret true.

End Samples.

(* ================================================================== *)
(** ** Views of the script's data used to state further properties *)
(* ================================================================== *)

Module AutostopViews.

Import Py Autostop.
Local Open Scope string_scope.

(** The value of the last option named [a] or [b] in a parsed option list. *)
Fixpoint last_value (a b : string) (opts : Getopt.optlist) : option string :=
  match opts with
  | [] => None
  | (o, v) :: rest =>
      match last_value a b rest with
      | Some x => Some x
      | None => if in2 o a b then Some v else None
      end
  end.

Definition has_option (a b : string) (opts : Getopt.optlist) : bool :=
  existsb (fun oa => in2 (fst oa) a b) opts.

(** A session on which the loop gets as far as calling the idle check. *)
Definition reaches_check (ignore : bool) (notebook : Session) : bool :=
  String.eqb (execution_state notebook) "idle"
  && (ignore || (connections notebook =? 0)%Z).

(** Events that stay on the instance: output, the metadata file and the
    local sessions endpoint. *)
Definition local_event (e : event) : Prop :=
  match e with
  | Print _ | ReadFile _ | HttpGet _ => True
  | _ => False
  end.

(** The line [is_idle] prints for a verdict. *)
Definition idle_message (verdict : bool) (last_activity : Datetime.datetime)
    : string :=
  (if verdict
   then "Notebook is idle. Last activity time =  "
   else "Notebook is not idle. Last activity time =  ")
  ++ Datetime.str last_activity.

(** Tags with the timeout key in second place and once more after it. *)
Definition sample_tags : list Tag :=
  [mkTag "Owner" "mle"; mkTag "AutoStopTimeOut" "600";
   mkTag "AutoStopTimeOut" "never"].

End AutostopViews.

(* ================================================================== *)
(** ** Facts about the runtime fragment and [getopt] *)
(* ================================================================== *)

Module PyFacts.

Import Py PyNotations.

Lemma bind_ret_l {A B} (a : A) (k : A -> M B) : bind (ret a) k = k a.
Proof. unfold bind, ret. destruct (k a). reflexivity. Qed.

Lemma result_bind_ok {A B} (c : M A) (k : A -> M B) (b : B) :
  result (bind c k) = Ok b ->
  exists a, result c = Ok a /\ result (k a) = Ok b.
Proof.
  destruct c as [t [a | e]]; simpl.
  - destruct (k a) as [t' r] eqn:E. simpl. intros ->. exists a.
    rewrite E. auto.
  - discriminate.
Qed.

End PyFacts.

Module GetoptFacts.

Import Py Getopt.

(** [do_shorts] hands back no more words than it was given. *)
Lemma do_shorts_args (optstring shortopts : string) :
  forall opts args opts' args',
    do_shorts opts optstring shortopts args = Ok (opts', args') ->
    (List.length args' <= List.length args)%nat.
Proof.
  induction optstring as [| c rest IH]; simpl; intros opts args opts' args' H.
  - inversion H; subst. lia.
  - destruct (short_has_arg c shortopts) as [[|] | e]; try discriminate.
    + destruct rest.
      * destruct args as [| a args0]; inversion H; subst. simpl. lia.
      * inversion H; subst. lia.
    + eapply IH; eauto.
Qed.

Lemma do_longs_args (opt : string) (longopts : list string) :
  forall opts args opts' args',
    do_longs opts opt longopts args = Ok (opts', args') ->
    (List.length args' <= List.length args)%nat.
Proof.
  unfold do_longs. intros opts args opts' args'.
  destruct (String.index 0 "=" opt) as [i |];
    match goal with
    | |- context [long_has_args ?o longopts] =>
        destruct (long_has_args o longopts) as [[[|] name] | e]
    end;
    try discriminate;
    try (destruct args as [| a args0]);
    intros H; inversion H; subst; simpl; lia.
Qed.

(** The loop's answer does not depend on the fuel once there is one unit
    per word: the cut-off branch is dead code. *)
Lemma getopt_loop_fuel (shortopts : string) (longopts : list string) :
  forall fuel1 fuel2 opts args,
    (List.length args <= fuel1)%nat -> (List.length args <= fuel2)%nat ->
    getopt_loop fuel1 opts args shortopts longopts
    = getopt_loop fuel2 opts args shortopts longopts.
Proof.
  induction fuel1 as [| f1 IH]; intros fuel2 opts args H1 H2.
  - destruct args; [| simpl in H1; lia]. destruct fuel2; reflexivity.
  - destruct args as [| a rest]; [destruct fuel2; reflexivity |].
    destruct fuel2 as [| f2]; [simpl in H2; lia |].
    simpl in *.
    destruct (startswith a "-" && negb (a =? "-")%string); [| reflexivity].
    destruct (a =? "--")%string; [reflexivity |].
    destruct (startswith a "--").
    + destruct (do_longs _ _ _ _) as [[o' a'] | e] eqn:E; [| reflexivity].
      apply do_longs_args in E. apply IH; lia.
    + destruct (do_shorts _ _ _ _) as [[o' a'] | e] eqn:E; [| reflexivity].
      apply do_shorts_args in E. apply IH; lia.
Qed.

(** [getopt] unfolds like the source's loop. *)
Lemma getopt_cons (a : string) (rest : list string) (shortopts : string)
    (longopts : list string) :
  getopt (a :: rest) shortopts longopts =
  if startswith a "-" && negb (a =? "-")%string then
    if (a =? "--")%string then Ok ([], rest)
    else
      match (if startswith a "--"
             then do_longs [] (substring 2 (String.length a - 2) a) longopts rest
             else do_shorts [] (substring 1 (String.length a - 1) a) shortopts rest)
      with
      | Raise e => Raise e
      | Ok (opts', args') =>
          getopt_loop (List.length args') opts' args' shortopts longopts
      end
  else Ok ([], a :: rest).
Proof.
  unfold getopt. simpl.
  destruct (startswith a "-" && negb (a =? "-")%string); [| reflexivity].
  destruct (a =? "--")%string; [reflexivity |].
  destruct (startswith a "--").
  - destruct (do_longs _ _ _ _) as [[o' a'] | e] eqn:E; [| reflexivity].
    apply do_longs_args in E. apply getopt_loop_fuel; lia.
  - destruct (do_shorts _ _ _ _) as [[o' a'] | e] eqn:E; [| reflexivity].
    apply do_shorts_args in E. apply getopt_loop_fuel; lia.
Qed.

End GetoptFacts.

(* ================================================================== *)
(** ** Facts about [total_seconds], [strptime] and [strftime] *)
(* ================================================================== *)

Module DatetimeFacts.

Import Py Datetime.
Local Open Scope Z_scope.

Lemma float_gt_int_iff (x : Q) (n : Z) :
  float_gt_int x n = true <-> (inject_Z n < x)%Q.
Proof.
  unfold float_gt_int. rewrite negb_true_iff.
  destruct (Qle_bool x (inject_Z n)) eqn:E.
  - apply Qle_bool_iff in E. split; [discriminate |].
    intros H. exfalso. apply (Qlt_not_le _ _ H E).
  - split; [intros _ | reflexivity].
    apply Qnot_le_lt. intros H. apply Qle_bool_iff in H. congruence.
Qed.

(** Rounding to the nearest integer stays on the same side of an integer
    bound, and crosses it only from more than half a unit away. *)
Lemma round_half_even_le (x d N : Z) :
  0 < d -> x <= N * d -> round_half_even x d <= N.
Proof.
  intros Hd Hx. unfold round_half_even.
  pose proof (Z.div_mod x d ltac:(lia)) as E.
  pose proof (Z.mod_pos_bound x d Hd) as B.
  assert (x / d <= N) by nia.
  destruct (Z.compare_spec (2 * (x mod d)) d) as [C | C | C]; try lia.
  - destruct (Z.even (x / d)); nia.
  - nia.
Qed.

Lemma round_half_even_ge (x d N : Z) :
  0 < d -> N * d <= x -> N <= round_half_even x d.
Proof.
  intros Hd Hx. unfold round_half_even.
  pose proof (Z.div_mod x d ltac:(lia)) as E.
  pose proof (Z.mod_pos_bound x d Hd) as B.
  assert (N <= x / d) by nia.
  destruct (2 * (x mod d) ?= d); [destruct (Z.even (x / d)) | |]; lia.
Qed.

Lemma round_half_even_gt (x d N h : Z) :
  0 < d -> d < 2 * h -> N * d + h <= x -> N < round_half_even x d.
Proof.
  intros Hd Hh Hx. unfold round_half_even.
  pose proof (Z.div_mod x d ltac:(lia)) as E.
  pose proof (Z.mod_pos_bound x d Hd) as B.
  assert (N <= x / d) by nia.
  destruct (Z.compare_spec (2 * (x mod d)) d) as [C | C | C].
  - destruct (Z.even (x / d)); nia.
  - nia.
  - lia.
Qed.

Lemma round_half_even_lt (x d N h : Z) :
  0 < d -> d < 2 * h -> x + h <= N * d -> round_half_even x d < N.
Proof.
  intros Hd Hh Hx. unfold round_half_even.
  pose proof (Z.div_mod x d ltac:(lia)) as E.
  pose proof (Z.mod_pos_bound x d Hd) as B.
  assert (x / d < N) by nia.
  destruct (Z.compare_spec (2 * (x mod d)) d) as [C | C | C].
  - destruct (Z.even (x / d)); nia.
  - lia.
  - nia.
Qed.

(** Below 2^34 the binade leaves at least 19 fraction bits. *)
Lemma binade_bound (a d : Z) :
  0 < d -> 0 < a -> a < 2 ^ 34 * d -> binade a d <= 33.
Proof.
  intros Hd Ha Hb. unfold binade.
  destruct (d <=? a) eqn:E.
  - apply Z.leb_le in E.
    assert (0 < a / d) by (apply Z.div_str_pos; lia).
    assert (a / d < 2 ^ 34) by (apply Z.div_lt_upper_bound; lia).
    assert (Z.log2 (a / d) < 34) by (apply Z.log2_lt_pow2; lia).
    lia.
  - pose proof (Z.log2_up_nonneg ((d + a - 1) / a)). lia.
Qed.

(** Within 2^34 seconds (some 544 years) either way, the float that
    [total_seconds] returns compares with an integer number of seconds
    exactly as the microsecond count does. *)
Lemma total_seconds_exact (td t : Z) :
  Z.abs td < 2 ^ 34 * 1000000 ->
  ((inject_Z t < total_seconds td)%Q <-> t * 1000000 < td).
Proof.
  intros Hb. unfold total_seconds, true_divide.
  destruct (td =? 0) eqn:E0.
  - apply Z.eqb_eq in E0. subst td. unfold Qlt. simpl. lia.
  - apply Z.eqb_neq in E0.
    set (a := Z.abs td). set (d := 1000000).
    assert (Ha : 0 < a) by (unfold a; lia).
    pose proof (@binade_bound a d ltac:(unfold d; lia) Ha Hb) as Hk.
    set (e := binade a d - 52) in *.
    assert (He : (0 <=? e) = false) by (apply Z.leb_gt; lia).
    rewrite He.
    set (P := 2 ^ (- e)).
    assert (HP : 2 ^ 19 <= P) by (apply Z.pow_le_mono_r; lia).
    change (2 ^ 19) with 524288 in HP.
    assert (HPp : Z.pos (Z.to_pos P) = P) by (apply Z2Pos.id; lia).
    set (m := round_half_even (a * P) d).
    destruct (td <? 0) eqn:Es.
    + apply Z.ltb_lt in Es. assert (Ea : td = - a) by (unfold a; lia).
      unfold Qlt, Qopp. cbn [Qnum Qden inject_Z]. rewrite HPp.
      split; intros H.
      * destruct (Z_lt_le_dec (t * d) td) as [L | L]; [exact L | exfalso].
        assert (G : - t * P <= m).
        { apply round_half_even_ge; [unfold d; lia | nia]. }
        lia.
      * assert (G : m < - t * P).
        { apply round_half_even_lt with (h := P); unfold d in *; [lia | lia | nia]. }
        lia.
    + apply Z.ltb_ge in Es. assert (Ea : td = a) by (unfold a; lia).
      unfold Qlt. cbn [Qnum Qden inject_Z]. rewrite HPp.
      split; intros H.
      * destruct (Z_lt_le_dec (t * d) td) as [L | L]; [exact L | exfalso].
        assert (G : m <= t * P).
        { apply round_half_even_le; [unfold d; lia | nia]. }
        lia.
      * assert (G : t * P < m).
        { apply round_half_even_gt with (h := P); unfold d in *; [lia | lia | nia]. }
        lia.
Qed.

(** *** Printing a datetime and reading it back *)

















End DatetimeFacts.

(* ================================================================== *)
(** ** Properties of the script *)
(* ================================================================== *)

Module AutostopSpec.

Import Py PyNotations Autostop.
Local Open Scope string_scope.

#[local] Opaque usageInfo helpInfo.

Section CommandLine.

Variable int : string -> option Z.
Variable strptime : string -> option Datetime.datetime.
Variable strftime : Datetime.datetime -> string.

(** The loop stops at the first help option, whatever it has read so far. *)
Lemma for_opts_help (pre : Getopt.optlist) :
  forall opt arg post g,
    in2 opt "-h" "--help" = true ->
    Forall (time_value_ok int) pre ->
    for_opts int (pre ++ (opt, arg) :: post)%list g
    = ([Print helpInfo], Raise (SystemExit 0)).
Proof.
  induction pre as [| [o v] pre IH]; intros opt arg post g Hh Hpre.
  - simpl. rewrite Hh. reflexivity.
  - inversion Hpre as [| x l Hov Hrest]; subst.
    change ((((o, v) :: pre) ++ (opt, arg) :: post)%list)
      with ((o, v) :: (pre ++ (opt, arg) :: post))%list.
    cbn [for_opts].
    destruct (in2 o "-h" "--help"); [reflexivity |].
    rewrite PyFacts.bind_ret_l.
    destruct (in2 o "-t" "--time") eqn:Et.
    + unfold time_value_ok in Hov. simpl in Hov.
      destruct (int v) as [n |]; [| exfalso; apply Hov; auto].
      rewrite PyFacts.bind_ret_l. apply IH; assumption.
    + rewrite PyFacts.bind_ret_l. apply IH; assumption.
Qed.

Lemma parse_command_line_raises (sys_argv : list string) :
  Getopt.getopt sys_argv shortopts longopts = Raise GetoptError ->
  parse_command_line int sys_argv = ([Print usageInfo], Raise (SystemExit 1)).
Proof. unfold parse_command_line. intros ->. reflexivity. Qed.

Lemma parse_command_line_no_opts (sys_argv args : list string) :
  Getopt.getopt sys_argv shortopts longopts = Ok ([], args) ->
  parse_command_line int sys_argv = ([Print usageInfo], Raise (SystemExit 1)).
Proof. unfold parse_command_line. intros ->. reflexivity. Qed.

Lemma parse_command_line_help (sys_argv : list string) pre opt arg post args :
  Getopt.getopt sys_argv shortopts longopts = Ok (pre ++ (opt, arg) :: post, args)%list ->
  in2 opt "-h" "--help" = true ->
  Forall (time_value_ok int) pre ->
  parse_command_line int sys_argv = ([Print helpInfo], Raise (SystemExit 0)).
Proof.
  unfold parse_command_line. intros -> Hh Hpre.
  assert (Hlen : (List.length (pre ++ (opt, arg) :: post) =? 0)%nat = false).
  { rewrite length_app. simpl. apply Nat.eqb_neq. lia. }
  unfold lift. cbn [bind]. rewrite Hlen, PyFacts.bind_ret_l.
  rewrite for_opts_help by assumption. reflexivity.
Qed.

(** Whatever ends the reading of the command line ends the run. *)
Lemma main_parse_raises (w : World) (t : list event) (e : exn) :
  parse_command_line int (argv w) = (t, Raise e) ->
  main int strptime strftime w = (t, Raise e).
Proof.
  unfold main, idle_determination. intros ->. reflexivity.
Qed.

(** C8: a command line in which [getopt] finds no option at all, the empty
    one included, is well formed for [getopt] and yet makes the program
    print the usage text and exit with code 1, before any idle check. *)
Theorem no_option_prints_usage_and_exits_1 (w : World) (args : list string) :
  Getopt.getopt (argv w) shortopts longopts = Ok ([], args) ->
  main int strptime strftime w = ([Print usageInfo], Raise (SystemExit 1))
  /\ exit_status (main int strptime strftime w) = 1%Z.
Proof.
  intros H. apply parse_command_line_no_opts in H.
  apply main_parse_raises in H. rewrite H. split; reflexivity.
Qed.

(** C7, as amended: when [getopt] cannot parse the command line the program
    prints the usage text and exits with code 1, whether or not a help flag
    is among the words; when [getopt] parses it and the parsed options hold
    [-h]/[--help], every [-t]/[--time] before it carrying an integer, the
    program prints the help text and exits with code 0. *)
Theorem malformed_exits_1_and_parsed_help_exits_0 (w : World) :
  (Getopt.getopt (argv w) shortopts longopts = Raise GetoptError ->
   main int strptime strftime w = ([Print usageInfo], Raise (SystemExit 1))
   /\ exit_status (main int strptime strftime w) = 1%Z)
  /\
  (forall pre opt arg post args,
     Getopt.getopt (argv w) shortopts longopts
     = Ok (pre ++ (opt, arg) :: post, args)%list ->
     in2 opt "-h" "--help" = true ->
     Forall (time_value_ok int) pre ->
     main int strptime strftime w = ([Print helpInfo], Raise (SystemExit 0))
     /\ exit_status (main int strptime strftime w) = 0%Z).
Proof.
  split.
  - intros H. apply parse_command_line_raises in H.
    apply main_parse_raises in H. rewrite H. split; reflexivity.
  - intros pre opt arg post args H Hh Hpre.
    assert (P : parse_command_line int (argv w)
                = ([Print helpInfo], Raise (SystemExit 0)))
      by (eapply parse_command_line_help; eauto).
    apply main_parse_raises in P. rewrite P. split; reflexivity.
Qed.

End CommandLine.

Section IdleCheck.

Variable int : string -> option Z.
Variable strptime : string -> option Datetime.datetime.
Variable strftime : Datetime.datetime -> string.

(** What [is_idle] does when called with a timestamp it can parse and an
    integer timeout. *)
Lemma is_idle_parsed (now parsed : Datetime.datetime) (last_activity : string)
    (idle_timeout : Z) :
  strptime last_activity = Some parsed ->
  result (is_idle strptime now [VStr last_activity; VInt idle_timeout])
  = Ok (Datetime.float_gt_int
          (Datetime.total_seconds (Datetime.sub now parsed)) idle_timeout).
Proof.
  intros H. unfold is_idle, def2. rewrite H.
  destruct (Datetime.float_gt_int _ _); reflexivity.
Qed.

(** C1: for a timestamp [strptime] parses and an integer timeout, [is_idle]
    returns a boolean, true exactly when the elapsed seconds it measures
    ([total_seconds] of now minus the parsed time) are strictly greater than
    the timeout and false otherwise; as long as the two times lie within
    2^34 seconds of each other this is the exact comparison of the elapsed
    microseconds with the timeout. *)
Theorem is_idle_true_iff_elapsed_exceeds_timeout
    (now parsed : Datetime.datetime) (last_activity : string) (idle_timeout : Z) :
  strptime last_activity = Some parsed ->
  exists b : bool,
    result (is_idle strptime now [VStr last_activity; VInt idle_timeout]) = Ok b
    /\ (b = true <->
        (inject_Z idle_timeout
         < Datetime.total_seconds (Datetime.sub now parsed))%Q)
    /\ (b = false <->
        (Datetime.total_seconds (Datetime.sub now parsed)
         <= inject_Z idle_timeout)%Q)
    /\ ((Z.abs (Datetime.sub now parsed) < 2 ^ 34 * 1000000)%Z ->
        (b = true <-> (idle_timeout * 1000000 < Datetime.sub now parsed)%Z)).
Proof.
  intros H.
  exists (Datetime.float_gt_int
            (Datetime.total_seconds (Datetime.sub now parsed)) idle_timeout).
  split; [apply is_idle_parsed; assumption |].
  pose proof (DatetimeFacts.float_gt_int_iff
                (Datetime.total_seconds (Datetime.sub now parsed)) idle_timeout)
    as G.
  split; [exact G |]. split.
  - split.
    + intros F. apply Qnot_lt_le. intros L. apply G in L. congruence.
    + intros L. destruct (Datetime.float_gt_int _ _) eqn:E; [| reflexivity].
      exfalso. apply (Qlt_not_le _ _ (proj1 G eq_refl) L).
  - intros Hb. rewrite G. apply DatetimeFacts.total_seconds_exact. exact Hb.
Qed.

(** A call that passes [is_idle] a single argument never reaches its body. *)
Lemma is_idle_one_argument (now : Datetime.datetime) (v : pyval) :
  is_idle strptime now [v] = raise TypeError.
Proof. reflexivity. Qed.

(** So does a call of [get_notebook_timeout_tag] without its [tags]. *)
Lemma get_notebook_timeout_tag_no_argument :
  get_notebook_timeout_tag int [] = raise TypeError.
Proof. reflexivity. Qed.

(** The session loop's idle check, as the script calls it: any session
    that reaches it ends the run with [TypeError]. *)
Lemma session_body_reaching_check_raises (now : Datetime.datetime)
    (ignore : bool) (notebook : Session) (idle : bool) :
  execution_state notebook = "idle" ->
  (ignore = false -> connections notebook = 0%Z) ->
  session_body (is_idle strptime now) ignore notebook idle = raise TypeError.
Proof.
  intros Hs Hc. unfold session_body. rewrite Hs. cbn [String.eqb].
  change ("idle" =? "idle") with true. cbv iota.
  destruct ignore; cbn [negb].
  - reflexivity.
  - rewrite (Hc eq_refl). reflexivity.
Qed.

End IdleCheck.

Section Sessions.

Variable check : list pyval -> M bool.

(** The loop body written out for ignored connections: the session's
    [connections] field does not occur in it. *)
Lemma session_body_ignoring (notebook : Session) (idle : bool) :
  execution_state notebook = "idle" ->
  session_body check true notebook idle
  = (r <- check [VStr (last_activity notebook)] ;;
     if negb r then
       print "Notebook idle state set as False since kernel connections are ignored." ;;;
       ret false
     else ret idle).
Proof.
  intros Hs. unfold session_body. rewrite Hs. reflexivity.
Qed.

(** C5: with [ignore_connections] true, what the loop does with a session
    whose kernel is idle is the same for any two sessions with the same
    [last_activity], whatever their connection counts: the count is not
    read, the verdict comes from the idle check on [last_activity] alone. *)
Theorem ignored_connections_are_not_read (n1 n2 : Session) (idle : bool) :
  execution_state n1 = "idle" ->
  execution_state n2 = "idle" ->
  last_activity n1 = last_activity n2 ->
  session_body check true n1 idle = session_body check true n2 idle.
Proof.
  intros H1 H2 Hl.
  rewrite (session_body_ignoring n1 idle H1), (session_body_ignoring n2 idle H2).
  rewrite Hl. reflexivity.
Qed.

(** One turn of the loop leaves [idle] true only if it was true and the
    session passed. *)
Lemma session_body_true (ignore : bool) (notebook : Session) (idle : bool) :
  result (session_body check ignore notebook idle) = Ok true ->
  idle = true /\ session_passes check ignore notebook.
Proof.
  unfold session_body, session_passes.
  destruct (execution_state notebook =? "idle") eqn:Es.
  - apply String.eqb_eq in Es.
    destruct ignore; cbn [negb].
    + intros H. apply PyFacts.result_bind_ok in H. destruct H as [r [Hr H]].
      destruct r; cbn in H; [| discriminate].
      inversion H. repeat split; auto. discriminate.
    + destruct (connections notebook =? 0)%Z eqn:Ec.
      * apply Z.eqb_eq in Ec.
        intros H. apply PyFacts.result_bind_ok in H. destruct H as [r [Hr H]].
        destruct r; cbn in H; [| discriminate].
        inversion H. repeat split; auto.
      * cbn. discriminate.
  - cbn. discriminate.
Qed.

(** One turn never turns a false [idle] into a true one. *)
Lemma session_body_false (ignore : bool) (notebook : Session) (b : bool) :
  result (session_body check ignore notebook false) = Ok b -> b = false.
Proof.
  destruct b; [| reflexivity]. intros H.
  apply session_body_true in H. destruct H as [H _]. discriminate.
Qed.

Lemma session_loop_true (ignore : bool) (data : list Session) :
  forall idle,
    result (session_loop check ignore data idle) = Ok true ->
    idle = true /\ Forall (session_passes check ignore) data.
Proof.
  induction data as [| notebook rest IH]; intros idle H.
  - cbn in H. inversion H. auto.
  - cbn [session_loop] in H.
    apply PyFacts.result_bind_ok in H. destruct H as [b [Hb H]].
    apply IH in H. destruct H as [-> Hrest].
    apply session_body_true in Hb. destruct Hb as [-> Hp].
    split; [reflexivity | constructor; assumption].
Qed.

Lemma session_loop_false (ignore : bool) (data : list Session) :
  forall b,
    result (session_loop check ignore data false) = Ok b -> b = false.
Proof.
  intros b H. destruct b; [| reflexivity].
  apply session_loop_true in H. destruct H as [H _]. discriminate.
Qed.

End Sessions.

Section Traces.

Lemma forall_trace_bind {A B} (P : event -> Prop) (c : M A) (k : A -> M B) :
  Forall P (trace c) -> (forall a, Forall P (trace (k a))) ->
  Forall P (trace (bind c k)).
Proof.
  destruct c as [t [a | e]]; cbn; intros Ht Hk; [| exact Ht].
  specialize (Hk a). destruct (k a) as [t' r]. cbn in *.
  apply Forall_app. split; assumption.
Qed.

Lemma forall_trace_try {A} (P : event -> Prop) (body handler : M A) :
  Forall P (trace body) -> Forall P (trace handler) ->
  Forall P (trace (try_except_GetoptError body handler)).
Proof.
  destruct body as [t [a | e]]; cbn; intros Hb Hh; [exact Hb |].
  destruct e; try exact Hb.
  destruct handler as [t' r]. cbn in *. apply Forall_app. split; assumption.
Qed.

Lemma in_trace_bind {A B} (e : event) (c : M A) (k : A -> M B) :
  In e (trace (bind c k)) ->
  In e (trace c) \/ exists a, result c = Ok a /\ In e (trace (k a)).
Proof.
  destruct c as [t [a | x]]; cbn; [| auto].
  destruct (k a) as [t' r] eqn:E. cbn. intros H.
  apply in_app_or in H. destruct H as [H | H]; [auto |].
  right. exists a. rewrite E. auto.
Qed.

Lemma in_trace_bind_ok {A B} (e : event) (c : M A) (k : A -> M B) (a : A) :
  result c = Ok a -> In e (trace (k a)) -> In e (trace (bind c k)).
Proof.
  destruct c as [t r]. cbn. intros ->. destruct (k a) as [t' r']. cbn.
  intros H. apply in_or_app. auto.
Qed.

Lemma not_stop_in (t : list event) (n : string) :
  Forall not_stop t -> ~ In (StopNotebookInstance n) t.
Proof.
  intros F H. rewrite Forall_forall in F. apply (F _ H).
Qed.

End Traces.

(** Pieces of a run that cannot hold a stop request. *)
Ltac quiet :=
  repeat match goal with
    | |- Forall _ (trace (bind _ _)) => apply forall_trace_bind; [| intros]
    | |- Forall _ (trace (try_except_GetoptError _ _)) => apply forall_trace_try
    | |- Forall _ (trace (if ?b then _ else _)) => destruct b
    | |- Forall _ (trace (match ?o with Some _ => _ | None => _ end)) =>
        destruct o
    | |- Forall _ (trace (ret _)) => constructor
    | |- Forall _ (trace (raise _)) => constructor
    | |- Forall _ (trace (exit _)) => constructor
    | |- Forall _ (trace (lift _)) => constructor
    | |- Forall _ (trace (print _)) => repeat constructor
    | |- Forall _ (trace (emit _)) => repeat constructor
    end.

Section StopDecision.

Variable int : string -> option Z.
Variable strptime : string -> option Datetime.datetime.
Variable strftime : Datetime.datetime -> string.

Lemma for_opts_quiet (opts : Getopt.optlist) :
  forall g, Forall not_stop (trace (for_opts int opts g)).
Proof.
  induction opts as [| [opt arg] rest IH]; intros g.
  - cbn. constructor.
  - cbn [for_opts]. quiet. apply IH.
Qed.

Lemma parse_command_line_quiet (sys_argv : list string) :
  Forall not_stop (trace (parse_command_line int sys_argv)).
Proof.
  unfold parse_command_line. quiet.
  destruct a as [opts args]. quiet. apply for_opts_quiet.
Qed.

Lemma is_idle_quiet (now : Datetime.datetime) (args : list pyval) :
  Forall not_stop (trace (is_idle strptime now args)).
Proof.
  unfold is_idle, def2.
  destruct args as [| a [| b [| c l]]]; try (cbn; constructor).
  destruct a; try (cbn; constructor).
  destruct (strptime s); [| cbn; constructor].
  destruct b; try (cbn; constructor).
  quiet.
Qed.

Lemma session_body_quiet (check : list pyval -> M bool) (ignore : bool)
    (notebook : Session) (idle : bool) :
  (forall args, Forall not_stop (trace (check args))) ->
  Forall not_stop (trace (session_body check ignore notebook idle)).
Proof.
  intros Hc. unfold session_body. quiet; apply Hc.
Qed.

Lemma session_loop_quiet (check : list pyval -> M bool) (ignore : bool)
    (data : list Session) :
  (forall args, Forall not_stop (trace (check args))) ->
  forall idle, Forall not_stop (trace (session_loop check ignore data idle)).
Proof.
  intros Hc. induction data as [| notebook rest IH]; intros idle.
  - cbn. constructor.
  - cbn [session_loop]. apply forall_trace_bind.
    + apply session_body_quiet. exact Hc.
    + intros b. apply IH.
Qed.

Lemma find_timeout_tag_quiet (tags : list Tag) :
  Forall not_stop (trace (find_timeout_tag int tags)).
Proof.
  induction tags as [| tag rest IH]; cbn [find_timeout_tag]; quiet. exact IH.
Qed.

Lemma instance_check_quiet (w : World) (g : Globals) (nr : NotebookResource)
    (idle : bool) :
  Forall not_stop (trace (instance_check int strptime strftime w g nr idle)).
Proof.
  unfold instance_check. quiet;
    first [apply is_idle_quiet | cbn; constructor].
Qed.

Lemma idle_determination_quiet (w : World) :
  Forall not_stop (trace (idle_determination int strptime strftime w)).
Proof.
  unfold idle_determination, def_get_notebook_timeout_tag, get_notebook_resource.
  quiet.
  - apply parse_command_line_quiet.
  - apply session_loop_quiet. apply is_idle_quiet.
  - apply instance_check_quiet.
Qed.

(** The determination hands line 133 the resource read from the metadata
    file. *)
Lemma idle_determination_resource (w : World) (nr : NotebookResource) (b : bool) :
  result (idle_determination int strptime strftime w) = Ok (nr, b) ->
  nr = resource_metadata w.
Proof.
  unfold idle_determination. intros H.
  apply PyFacts.result_bind_ok in H. destruct H as [g [_ H]].
  apply PyFacts.result_bind_ok in H. destruct H as [u [_ H]].
  apply PyFacts.result_bind_ok in H. destruct H as [nr' [Hnr H]].
  apply PyFacts.result_bind_ok in H. destruct H as [u' [_ H]].
  apply PyFacts.result_bind_ok in H. destruct H as [idle [_ H]].
  cbn in H, Hnr. inversion H; subst. inversion Hnr. reflexivity.
Qed.

Lemma stop_decision_stops (nr : NotebookResource) (idle : bool) (n : string) :
  In (StopNotebookInstance n) (trace (stop_decision nr idle))
  <-> idle = true /\ n = name nr.
Proof.
  unfold stop_decision. destruct idle; cbn.
  - split.
    + intros [H | [H | []]]; [discriminate | inversion H; auto].
    + intros [_ ->]. auto.
  - split.
    + intros [H | []]. discriminate.
    + intros [H _]. discriminate.
Qed.

Lemma main_stops_iff (w : World) (n : string) :
  In (StopNotebookInstance n) (trace (main int strptime strftime w))
  <-> result (idle_determination int strptime strftime w)
      = Ok (resource_metadata w, true)
      /\ n = name (resource_metadata w).
Proof.
  unfold main. split.
  - intros H. apply in_trace_bind in H. destruct H as [H | [[nr idle] [Hr H]]].
    + exfalso. revert H. apply not_stop_in. apply idle_determination_quiet.
    + apply stop_decision_stops in H. destruct H as [-> ->].
      assert (E := Hr). apply idle_determination_resource in E.
      subst nr. auto.
  - intros [Hr ->].
    eapply in_trace_bind_ok; [exact Hr |].
    apply stop_decision_stops. auto.
Qed.

(** C6: a run asks for the instance to be stopped, and then for the instance
    named in the metadata file, exactly when the idle determination (lines
    43 to 131) completes with the flag still true, that is when no session
    check and no instance-level check set it to false and nothing ended the
    run before line 133. *)
Theorem stop_invoked_iff_determined_idle (w : World) (n : string) :
  In (StopNotebookInstance n) (trace (main int strptime strftime w))
  <-> result (idle_determination int strptime strftime w)
      = Ok (resource_metadata w, true)
      /\ n = name (resource_metadata w).
Proof. apply main_stops_iff. Qed.

(** As the script calls [is_idle] in the loop, a run that finds a session
    never stops the instance: either a session fails a test or the idle
    check raises. *)
Lemma stop_requires_no_session (w : World) (n : string) :
  In (StopNotebookInstance n) (trace (main int strptime strftime w)) ->
  sessions w = [].
Proof.
  intros H. apply main_stops_iff in H. destruct H as [H _].
  unfold idle_determination in H.
  apply PyFacts.result_bind_ok in H. destruct H as [g [_ H]].
  apply PyFacts.result_bind_ok in H. destruct H as [u [_ H]].
  apply PyFacts.result_bind_ok in H. destruct H as [nr [_ H]].
  apply PyFacts.result_bind_ok in H. destruct H as [u' [_ H]].
  apply PyFacts.result_bind_ok in H. destruct H as [idle [Hi H]].
  cbn in H. inversion H; subst idle.
  destruct (sessions w) as [| notebook rest]; [reflexivity | exfalso].
  cbn [List.length Nat.ltb Nat.leb] in Hi.
  apply session_loop_true in Hi. destruct Hi as [_ Hall].
  inversion Hall as [| x l [_ [_ Hc]] Hl]; subst.
  cbn in Hc. discriminate.
Qed.

End StopDecision.

Section FlagMonotone.

Variable check : list pyval -> M bool.
Variable ignore : bool.

(** C10: in the session loop the idle flag only ever falls.  It starts
    true; a turn of the loop (and so the whole loop) can end with the flag
    true only if it began with the flag true and the session passed every
    test of the body; hence a stop request after the loop means that every
    session of the list passed. *)
Theorem idle_flag_only_falls :
  initial_idle = true
  /\ (forall notebook idle,
        result (session_body check ignore notebook idle) = Ok true ->
        idle = true /\ session_passes check ignore notebook)
  /\ (forall data idle,
        result (session_loop check ignore data idle) = Ok true ->
        idle = true /\ Forall (session_passes check ignore) data)
  /\ ((forall args, Forall not_stop (trace (check args))) ->
      forall data notebook_resource n,
        In (StopNotebookInstance n)
           (trace (idle <- session_loop check ignore data initial_idle ;;
                   stop_decision notebook_resource idle)) ->
        Forall (session_passes check ignore) data).
Proof.
  split; [reflexivity |]. split; [| split].
  - intros notebook idle H. apply session_body_true. exact H.
  - intros data idle H. apply session_loop_true. exact H.
  - intros Hq data nr n H.
    apply in_trace_bind in H. destruct H as [H | [idle [Hr H]]].
    + exfalso. revert H. apply not_stop_in. apply session_loop_quiet. exact Hq.
    + apply stop_decision_stops in H. destruct H as [-> _].
      apply session_loop_true in Hr. apply Hr.
Qed.

End FlagMonotone.

Section Fallback.

Variable int : string -> option Z.
Variable strptime : string -> option Datetime.datetime.
Variable strftime : Datetime.datetime -> string.

(** Without a truthy timeout from the command line, line 124 calls
    [get_notebook_timeout_tag] with no argument and the run ends there:
    neither the tag nor the default is ever used. *)
Lemma instance_check_falsy_timeout (w : World) (g : Globals)
    (nr : NotebookResource) (idle : bool) :
  truthy (idle_timeout g) = false ->
  instance_check int strptime strftime w g nr idle
  = ([DescribeNotebookInstance (name nr); ListTags (arn nr)], Raise TypeError).
Proof.
  intros H. unfold instance_check. rewrite H. reflexivity.
Qed.

(** [-t 0] and no [-t] at all take the same path. *)
Lemma zero_timeout_same_as_absent (w : World) (p : string) (c : bool)
    (nr : NotebookResource) (idle : bool) :
  instance_check int strptime strftime w (mkGlobals p c (VInt 0)) nr idle
  = instance_check int strptime strftime w (mkGlobals p c VNone) nr idle.
Proof.
  rewrite !instance_check_falsy_timeout by reflexivity. reflexivity.
Qed.

(** With a non-zero [-t], the instance-level check is [is_idle] on the
    formatted [LastModifiedTime] with that timeout. *)
Lemma instance_check_cli_timeout (w : World) (g : Globals)
    (nr : NotebookResource) (idle : bool) (t : Z) :
  idle_timeout g = VInt t -> t <> 0%Z ->
  instance_check int strptime strftime w g nr idle
  = (emit (DescribeNotebookInstance (name nr)) ;;;
     emit (ListTags (arn nr)) ;;;
     r <- is_idle strptime (now w) [VStr (strftime (LastModifiedTime w)); VInt t] ;;
     if negb r then
       print "Notebook idle state set as False since no sessions detected." ;;;
       ret false
     else ret idle).
Proof.
  intros H Ht. unfold instance_check. rewrite H. cbn [truthy].
  apply Z.eqb_neq in Ht. rewrite Ht. cbn [negb].
  rewrite PyFacts.bind_ret_l. cbn [truthy]. rewrite Ht. reflexivity.
Qed.

(** Its verdict, when the formatted timestamp parses back (as it does with
    [Datetime.strptime] and [Datetime.strftime]): the flag stays as it was
    exactly when the instance was last modified more than [t] seconds ago. *)
Lemma instance_check_verdict (w : World) (g : Globals)
    (nr : NotebookResource) (idle : bool) (t : Z) :
  idle_timeout g = VInt t -> t <> 0%Z ->
  strptime (strftime (LastModifiedTime w)) = Some (LastModifiedTime w) ->
  result (instance_check int strptime strftime w g nr idle)
  = Ok (Datetime.float_gt_int
          (Datetime.total_seconds (Datetime.sub (now w) (LastModifiedTime w))) t
        && idle).
Proof.
  intros H Ht Hp. rewrite (instance_check_cli_timeout w g nr idle H Ht).
  unfold is_idle, def2. rewrite Hp.
  destruct (Datetime.float_gt_int _ _); reflexivity.
Qed.

(** Under eager annotation evaluation the [def] of line 86 ends every run
    that got past the command line. *)
Lemma eager_annotations_end_the_run (w : World) (t : list event) (g : Globals) :
  parse_command_line int (argv w) = (t, Ok g) ->
  eager_annotations w = true ->
  main int strptime strftime w = (t, Raise TypeError).
Proof.
  intros Hp He. unfold main, idle_determination, def_get_notebook_timeout_tag.
  rewrite Hp, He. cbn. rewrite app_nil_r. reflexivity.
Qed.

End Fallback.

End AutostopSpec.

(* ================================================================== *)
(** ** Concrete runs *)
(* ================================================================== *)

Module Runs.

Import Py PyNotations Autostop Samples.
Local Open Scope string_scope.

(** *** The command line *)

(** C7, as stated, fails on command lines that contain [-h].
    [-h -x]: [getopt] rejects [-x] before the option loop runs, so the run
    prints the usage text and exits with code 1.
    [-c stop -h]: [getopt] stops at the word [stop], [-h] is no option, and
    the run goes on to the idle check.
    [-t soon -h]: [getopt] parses it and [-h] is an option, but [int] raises
    on [soon] first.
    None of the three prints the help text. *)
Lemma command_lines_with_help_flag_not_answered_with_help :
  (In "-h" ["-h"; "-x"]
   /\ run (world ["-h"; "-x"] [] []) = ([Print usageInfo], Raise (SystemExit 1))
   /\ exit_status (run (world ["-h"; "-x"] [] [])) = 1%Z)
  /\ (In "-h" ["-c"; "stop"; "-h"]
      /\ run (world ["-c"; "stop"; "-h"] [busy_session] [])
         = ([ReadFile metadata_path; HttpGet sessions_url;
             Print "Notebook is not idle: busy";
             Print "Notebook not idle. Pass."],
            Ok tt))
  /\ (In "-h" ["-t"; "soon"; "-h"]
      /\ Getopt.getopt ["-t"; "soon"; "-h"] shortopts longopts
         = Ok ([("-t", "soon"); ("-h", "")], [])
      /\ run (world ["-t"; "soon"; "-h"] [] []) = ([], Raise ValueError)
      /\ exit_status (run (world ["-t"; "soon"; "-h"] [] [])) = 1%Z).
Proof.
  repeat split; try (vm_compute; reflexivity); cbn; auto.
Qed.

Lemma malformed_exits_1_and_parsed_help_exits_0_witness :
  (run (world ["--port"] [] []) = ([Print usageInfo], Raise (SystemExit 1))
   /\ exit_status (run (world ["--port"] [] [])) = 1%Z)
  /\ (run (world ["-c"; "-t"; "60"; "--help"; "-p"; "1"] [] [])
      = ([Print helpInfo], Raise (SystemExit 0))
      /\ exit_status (run (world ["-c"; "-t"; "60"; "--help"; "-p"; "1"] [] []))
         = 0%Z).
Proof.
  split.
  - apply (proj1 (AutostopSpec.malformed_exits_1_and_parsed_help_exits_0
                    int_ascii Datetime.strptime Datetime.strftime
                    (world ["--port"] [] []))).
    vm_compute. reflexivity.
  - apply (proj2 (AutostopSpec.malformed_exits_1_and_parsed_help_exits_0
                    int_ascii Datetime.strptime Datetime.strftime
                    (world ["-c"; "-t"; "60"; "--help"; "-p"; "1"] [] []))
             [("-c", ""); ("-t", "60")] "--help" "" [("-p", "1")] []).
    + vm_compute. reflexivity.
    + vm_compute. reflexivity.
    + repeat constructor; unfold time_value_ok; cbn; discriminate.
Defined.

Lemma no_option_prints_usage_and_exits_1_witness :
  run (world [] [] []) = ([Print usageInfo], Raise (SystemExit 1))
  /\ exit_status (run (world [] [] [])) = 1%Z.
Proof.
  apply (@AutostopSpec.no_option_prints_usage_and_exits_1
           int_ascii Datetime.strptime Datetime.strftime (world [] [] []) []).
  vm_compute. reflexivity.
Defined.

(** Words that are not options do not count: [getopt] stops at the first. *)
Lemma positional_words_only_exits_1 :
  run (world ["3600"; "-c"] [] []) = ([Print usageInfo], Raise (SystemExit 1)).
Proof. vm_compute. reflexivity. Qed.

(** *** The idle check *)

Lemma is_idle_true_iff_elapsed_exceeds_timeout_witness :
  exists b : bool,
    result (is_idle Datetime.strptime two_hours_later
              [VStr "2024-01-01T00:00:00.000000Z"; VInt 3600]) = Ok b
    /\ (b = true <->
        (inject_Z 3600
         < Datetime.total_seconds (Datetime.sub two_hours_later midnight))%Q)
    /\ (b = false <->
        (Datetime.total_seconds (Datetime.sub two_hours_later midnight)
         <= inject_Z 3600)%Q)
    /\ ((Z.abs (Datetime.sub two_hours_later midnight) < 2 ^ 34 * 1000000)%Z ->
        (b = true <->
         (3600 * 1000000 < Datetime.sub two_hours_later midnight)%Z)).
Proof.
  apply (@AutostopSpec.is_idle_true_iff_elapsed_exceeds_timeout
           Datetime.strptime two_hours_later midnight
           "2024-01-01T00:00:00.000000Z" 3600%Z).
  vm_compute. reflexivity.
Defined.

(** Two hours and five microseconds have passed: idle for a timeout of
    7200 seconds, not idle for 7201. *)
Lemma is_idle_at_the_boundary :
  is_idle Datetime.strptime two_hours_later
    [VStr "2024-01-01T00:00:00.000000Z"; VInt 7200]
  = ([Print "Notebook is idle. Last activity time =  2024-01-01 00:00:00"],
     Ok true)
  /\ is_idle Datetime.strptime two_hours_later
       [VStr "2024-01-01T00:00:00.000000Z"; VInt 7201]
     = ([Print "Notebook is not idle. Last activity time =  2024-01-01 00:00:00"],
        Ok false).
Proof. split; vm_compute; reflexivity. Qed.

(** Past 2^34 seconds the float no longer separates one microsecond from
    none: the quotient is rounded to a whole number of seconds. *)
Lemma total_seconds_rounds_beyond_2_34 :
  Datetime.float_gt_int
    (Datetime.total_seconds (2 ^ 34 * 1000000 + 1)%Z) (2 ^ 34)%Z = false.
Proof. vm_compute. reflexivity. Qed.

(** *** The sessions *)

Lemma ignored_connections_are_not_read_witness :
  session_body always_idle true quiet_session true
  = session_body always_idle true watched_session true.
Proof.
  apply (@AutostopSpec.ignored_connections_are_not_read
           always_idle quiet_session watched_session true);
    reflexivity.
Defined.

Lemma idle_flag_only_falls_witness :
  Forall (session_passes always_idle false) [quiet_session; quiet_session].
Proof.
  apply (proj2 (proj2 (proj2 (AutostopSpec.idle_flag_only_falls always_idle false)))
           (fun args => Forall_nil not_stop)
           [quiet_session; quiet_session] notebook "nb").
  vm_compute. right. left. reflexivity.
Defined.

(** One session with a client connected keeps the instance up. *)
Lemma watched_session_keeps_instance :
  run (world ["-t"; "60"] [watched_session] [])
  = ([ReadFile metadata_path; HttpGet sessions_url;
      Print "Notebook idle state set as False because no kernel has been detected.";
      Print "Notebook not idle. Pass."],
     Ok tt).
Proof. vm_compute. reflexivity. Qed.

(** C2 fails on the script: a session with an idle kernel and no connection
    reaches [is_idle(notebook['kernel']['last_activity'])], a call with one
    argument of a function of two, and the run ends with [TypeError]. *)
Lemma idle_session_run_raises_TypeError :
  run (world ["-t"; "60"] [quiet_session] [])
  = ([ReadFile metadata_path; HttpGet sessions_url], Raise TypeError).
Proof. vm_compute. reflexivity. Qed.

(** *** No session *)

(** With a non-zero [-t] the instance-level check runs and the instance is
    stopped. *)
Lemma no_session_cli_timeout_stops :
  run (world ["-t"; "3600"] [] [timeout_tag])
  = ([ReadFile metadata_path; HttpGet sessions_url;
      DescribeNotebookInstance "nb"; ListTags (arn notebook);
      Print "Notebook is idle. Last activity time =  2024-01-01 00:00:00";
      Print "Closing idle notebook"; StopNotebookInstance "nb"],
     Ok tt).
Proof. vm_compute. reflexivity. Qed.

(** C3 fails on the script: no [-t], a tag [AutoStopTimeOut = 600]; the tag
    is never read, [get_notebook_timeout_tag()] raises [TypeError]. *)
Lemma tag_timeout_run_raises_TypeError :
  run (world ["-c"] [] [timeout_tag])
  = ([ReadFile metadata_path; HttpGet sessions_url;
      DescribeNotebookInstance "nb"; ListTags (arn notebook)],
     Raise TypeError).
Proof. vm_compute. reflexivity. Qed.

(** C4 fails on the script: no session and no [-t]; the metadata and the
    tags are fetched, then the run ends before [is_idle] is applied. *)
Lemma no_session_run_raises_TypeError :
  run (world ["--port"; "8443"] [] [])
  = ([ReadFile metadata_path; HttpGet sessions_url;
      DescribeNotebookInstance "nb"; ListTags (arn notebook)],
     Raise TypeError).
Proof. vm_compute. reflexivity. Qed.

(** C9 fails on the script: [-t 0] is falsy, so line 124 is reached as it is
    without [-t], and the run ends there; neither the tag nor the default
    replaces the 0. *)
Lemma zero_timeout_run_raises_TypeError :
  run (world ["-t"; "0"] [] [timeout_tag])
  = ([ReadFile metadata_path; HttpGet sessions_url;
      DescribeNotebookInstance "nb"; ListTags (arn notebook)],
     Raise TypeError).
Proof. vm_compute. reflexivity. Qed.

End Runs.

(* ================================================================== *)
(** ** Further properties of the script *)
(* ================================================================== *)

Module AutostopExtra.

Import Py PyNotations Autostop AutostopViews.
Local Open Scope string_scope.

#[local] Opaque usageInfo helpInfo.

(** *** Laws of sequencing *)

Lemma bind_bind {A B C} (c : M A) (f : A -> M B) (g : B -> M C) :
  bind (bind c f) g = bind c (fun a => bind (f a) g).
Proof.
  destruct c as [t [a | e]]; cbn; [| reflexivity].
  destruct (f a) as [t1 [b | e1]]; cbn; [| reflexivity].
  destruct (g b) as [t2 r]. rewrite app_assoc. reflexivity.
Qed.

Lemma bind_ext {A B} (c : M A) (f g : A -> M B) :
  (forall a, f a = g a) -> bind c f = bind c g.
Proof.
  intros H. destruct c as [t [a | e]]; cbn; [rewrite H |]; reflexivity.
Qed.

Lemma result_bind_of_ok {A B} (c : M A) (k : A -> M B) (a : A) :
  result c = Ok a -> result (bind c k) = result (k a).
Proof.
  destruct c as [t r]. cbn. intros ->. destruct (k a). reflexivity.
Qed.



Section TimeoutTag.

Variable int : string -> option Z.

Lemma find_timeout_tag_skips (pre rest : list Tag) :
  (forall t, In t pre -> Key t <> DEFAULT_TAG_KEY) ->
  find_timeout_tag int (pre ++ rest) = find_timeout_tag int rest.
Proof.
  induction pre as [| t pre IH]; intros H; [reflexivity |].
  cbn [app find_timeout_tag].
  destruct (String.eqb_spec (Key t) DEFAULT_TAG_KEY) as [E | E].
  - exfalso. apply (H t); [left; reflexivity | exact E].
  - apply IH. intros x Hx. apply H. right. exact Hx.
Qed.

(** X1: [get_notebook_timeout_tag], called with a tag list, answers from the
    first tag whose key is [AutoStopTimeOut]: the integer [int] reads in its
    value, or [ValueError] when [int] rejects it, whatever tags follow; with
    no such tag it returns [None].  It emits nothing. *)
Theorem first_timeout_tag_decides :
  (forall tags,
     (forall t, In t tags -> Key t <> DEFAULT_TAG_KEY) ->
     get_notebook_timeout_tag int [tags] = ret VNone)
  /\ (forall pre tag post,
        (forall t, In t pre -> Key t <> DEFAULT_TAG_KEY) ->
        Key tag = DEFAULT_TAG_KEY ->
        get_notebook_timeout_tag int [(pre ++ tag :: post)%list]
        = match int (Value tag) with
          | Some n => ret (VInt n)
          | None => raise ValueError
          end).
Proof.
  split.
  - intros tags H. unfold get_notebook_timeout_tag, def1.
    rewrite <- (app_nil_r tags). rewrite find_timeout_tag_skips by exact H.
    reflexivity.
  - intros pre tag post H Hk. unfold get_notebook_timeout_tag, def1.
    rewrite find_timeout_tag_skips by exact H.
    cbn [find_timeout_tag]. rewrite Hk, String.eqb_refl. reflexivity.
Qed.

End TimeoutTag.

Section IdleCheckErrors.

Variable strptime : string -> option Datetime.datetime.
Variable now : Datetime.datetime.

(** X2: the ways [is_idle] ends.  A timestamp [strptime] rejects raises
    [ValueError] whatever the timeout, and a timeout of [None] with a
    timestamp that parses raises [TypeError], both before anything is
    printed; a call that returns has printed exactly one line, the message
    for its verdict followed by the parsed time. *)
Theorem is_idle_raises_or_prints_one_line :
  (forall s timeout,
     strptime s = None ->
     is_idle strptime now [VStr s; timeout] = raise ValueError)
  /\ (forall s parsed,
        strptime s = Some parsed ->
        is_idle strptime now [VStr s; VNone] = raise TypeError)
  /\ (forall s timeout verdict,
        result (is_idle strptime now [VStr s; timeout]) = Ok verdict ->
        exists parsed,
          strptime s = Some parsed
          /\ trace (is_idle strptime now [VStr s; timeout])
             = [Print (idle_message verdict parsed)]).
Proof.
  split; [| split].
  - intros s timeout H. unfold is_idle, def2. rewrite H. reflexivity.
  - intros s parsed H. unfold is_idle, def2. rewrite H. reflexivity.
  - intros s timeout verdict. unfold is_idle, def2.
    destruct (strptime s) as [parsed |]; [| discriminate].
    destruct timeout as [| t | x]; try discriminate.
    destruct (Datetime.float_gt_int _ _); cbn; intros H; inversion H; subst;
      exists parsed; split; reflexivity.
Qed.

End IdleCheckErrors.

Section CommandLineResult.

Variable int : string -> option Z.

Lemma short_has_arg_raises (c : ascii) (so : string) (e : exn) :
  Getopt.short_has_arg c so = Raise e -> e = GetoptError.
Proof.
  induction so as [| x so IH]; cbn.
  - intros H. inversion H. reflexivity.
  - destruct (Ascii.eqb c x && negb (Ascii.eqb x ":")); [discriminate | exact IH].
Qed.

Lemma do_shorts_raises (optstring so : string) :
  forall opts args e,
    Getopt.do_shorts opts optstring so args = Raise e -> e = GetoptError.
Proof.
  induction optstring as [| c rest IH]; cbn; intros opts args e H;
    [discriminate |].
  destruct (Getopt.short_has_arg c so) as [[|] | x] eqn:E.
  - destruct rest; [destruct args |]; inversion H; reflexivity.
  - eapply IH. exact H.
  - inversion H; subst. eapply short_has_arg_raises. exact E.
Qed.

Lemma long_has_args_raises (opt : string) (lo : list string) (e : exn) :
  Getopt.long_has_args opt lo = Raise e -> e = GetoptError.
Proof.
  unfold Getopt.long_has_args.
  destruct (filter (fun o => startswith o opt) lo) as [| p [| q l]];
    repeat match goal with
           | |- context [if ?b then _ else _] => destruct b
           end;
    intros H; inversion H; reflexivity.
Qed.

Lemma do_longs_raises (opt : string) (lo args : list string)
    (opts : Getopt.optlist) (e : exn) :
  Getopt.do_longs opts opt lo args = Raise e -> e = GetoptError.
Proof.
  unfold Getopt.do_longs.
  destruct (String.index 0 "=" opt) as [i |];
    match goal with
    | |- context [Getopt.long_has_args ?o lo] =>
        destruct (Getopt.long_has_args o lo) as [[[|] name] | x] eqn:E
    end;
    try (destruct args);
    intros H; inversion H; subst;
    try reflexivity; eapply long_has_args_raises; exact E.
Qed.

Lemma getopt_loop_raises (so : string) (lo : list string) (fuel : nat) :
  forall opts args e,
    Getopt.getopt_loop fuel opts args so lo = Raise e -> e = GetoptError.
Proof.
  induction fuel as [| fuel IH]; intros opts args e; destruct args as [| a rest];
    cbn; try discriminate.
  - destruct (startswith a "-" && negb (a =? "-")); [| discriminate].
    destruct (a =? "--"); discriminate.
  - destruct (startswith a "-" && negb (a =? "-")); [| discriminate].
    destruct (a =? "--"); [discriminate |].
    destruct (startswith a "--").
    + destruct (Getopt.do_longs _ _ _ _) as [[o' a'] | x] eqn:E.
      * apply IH.
      * intros H. inversion H; subst. eapply do_longs_raises. exact E.
    + destruct (Getopt.do_shorts _ _ _ _) as [[o' a'] | x] eqn:E.
      * apply IH.
      * intros H. inversion H; subst. eapply do_shorts_raises. exact E.
Qed.

Lemma for_opts_outcomes (opts : Getopt.optlist) :
  forall g,
    (exists g', for_opts int opts g = ([], Ok g'))
    \/ for_opts int opts g = ([Print helpInfo], Raise (SystemExit 0))
    \/ for_opts int opts g = ([], Raise ValueError).
Proof.
  induction opts as [| [o v] rest IH]; intros g.
  - left. exists g. reflexivity.
  - cbn [for_opts].
    destruct (in2 o "-h" "--help"); [right; left; reflexivity |].
    rewrite PyFacts.bind_ret_l.
    destruct (in2 o "-t" "--time").
    + destruct (int v) as [n |]; [| right; right; reflexivity].
      rewrite PyFacts.bind_ret_l. apply IH.
    + rewrite PyFacts.bind_ret_l. apply IH.
Qed.

Lemma parse_command_line_outcomes (sys_argv : list string) :
  (exists g, parse_command_line int sys_argv = ([], Ok g))
  \/ parse_command_line int sys_argv = ([Print helpInfo], Raise (SystemExit 0))
  \/ parse_command_line int sys_argv = ([Print usageInfo], Raise (SystemExit 1))
  \/ parse_command_line int sys_argv = ([], Raise ValueError).
Proof.
  unfold parse_command_line.
  destruct (Getopt.getopt sys_argv shortopts longopts) as [[opts args] | e] eqn:E.
  - destruct opts as [| p opts]; [right; right; left; reflexivity |].
    unfold lift. cbn [bind List.length Nat.eqb]. rewrite PyFacts.bind_ret_l.
    destruct (for_opts_outcomes (p :: opts) initial_globals)
      as [[g H] | [H | H]]; rewrite H; cbn; eauto.
  - apply getopt_loop_raises in E. subst e. right; right; left. reflexivity.
Qed.

(** X3: reading the command line ends in one of four ways and no other: it
    returns the settings having printed nothing; it prints the help text and
    exits with code 0; it prints the usage text and exits with code 1; or it
    raises [ValueError] (a [-t] value [int] rejects) having printed nothing.
    In particular [GetoptError] never escapes the [try]. *)
Theorem command_line_ends_in_four_ways (sys_argv : list string) :
  (exists g, parse_command_line int sys_argv = ([], Ok g))
  \/ parse_command_line int sys_argv = ([Print helpInfo], Raise (SystemExit 0))
  \/ parse_command_line int sys_argv = ([Print usageInfo], Raise (SystemExit 1))
  \/ parse_command_line int sys_argv = ([], Raise ValueError).
Proof. apply parse_command_line_outcomes. Qed.

Lemma for_opts_settings (opts : Getopt.optlist) :
  forall g0,
    has_option "-h" "--help" opts = false ->
    Forall (time_value_ok int) opts ->
    exists g,
      for_opts int opts g0 = ([], Ok g)
      /\ port g = match last_value "-p" "--port" opts with
                  | Some v => v
                  | None => port g0
                  end
      /\ ignore_connections g
         = ignore_connections g0 || has_option "-c" "--ignore-connections" opts
      /\ match last_value "-t" "--time" opts with
         | Some v => exists n, int v = Some n /\ idle_timeout g = VInt n
         | None => idle_timeout g = idle_timeout g0
         end.
Proof.
  induction opts as [| [o v] rest IH]; intros g0 Hh Ht.
  - exists g0. cbn. rewrite orb_false_r. auto.
  - unfold has_option in Hh. cbn [existsb fst] in Hh.
    apply orb_false_iff in Hh. destruct Hh as [Ho Hrest].
    inversion Ht as [| x l Hov Htrest]; subst.
    cbn [for_opts]. rewrite Ho, PyFacts.bind_ret_l.
    unfold has_option. cbn [existsb fst last_value].
    destruct (in2 o "-t" "--time") eqn:Et.
    + unfold time_value_ok in Hov. cbn [fst snd] in Hov.
      destruct (int v) as [n |] eqn:En; [| exfalso; apply Hov; auto].
      rewrite PyFacts.bind_ret_l.
      match goal with
      | |- context [for_opts int rest ?g1] =>
          destruct (IH g1 Hrest Htrest) as [g [Hg [Hp [Hc Hi]]]]
      end.
      exists g. split; [exact Hg |].
      destruct (in2 o "-p" "--port"), (in2 o "-c" "--ignore-connections");
        cbn [port ignore_connections idle_timeout] in *;
        (split; [destruct (last_value "-p" "--port" rest); exact Hp |]);
        (split; [rewrite Hc; unfold has_option;
                 rewrite ?orb_true_r, ?orb_false_r; reflexivity |]);
        destruct (last_value "-t" "--time" rest); try exact Hi;
        exists n; auto.
    + rewrite PyFacts.bind_ret_l.
      match goal with
      | |- context [for_opts int rest ?g1] =>
          destruct (IH g1 Hrest Htrest) as [g [Hg [Hp [Hc Hi]]]]
      end.
      exists g. split; [exact Hg |].
      destruct (in2 o "-p" "--port"), (in2 o "-c" "--ignore-connections");
        cbn [port ignore_connections idle_timeout] in *;
        (split; [destruct (last_value "-p" "--port" rest); exact Hp |]);
        (split; [rewrite Hc; unfold has_option;
                 rewrite ?orb_true_r, ?orb_false_r; reflexivity |]);
        destruct (last_value "-t" "--time" rest); exact Hi.
Qed.

Lemma parse_command_line_settings
    (sys_argv : list string) (opts : Getopt.optlist) (args : list string) :
  Getopt.getopt sys_argv shortopts longopts = Ok (opts, args) ->
  opts <> [] ->
  has_option "-h" "--help" opts = false ->
  Forall (time_value_ok int) opts ->
  exists g,
    parse_command_line int sys_argv = ([], Ok g)
    /\ port g = match last_value "-p" "--port" opts with
                | Some v => v
                | None => "8443"
                end
    /\ ignore_connections g = has_option "-c" "--ignore-connections" opts
    /\ match last_value "-t" "--time" opts with
       | Some v => exists n, int v = Some n /\ idle_timeout g = VInt n
       | None => idle_timeout g = VNone
       end.
Proof.
  intros Hg Hne Hh Ht.
  destruct (for_opts_settings initial_globals Hh Ht) as [g [Hf [Hp [Hc Hi]]]].
  exists g. split; [| auto].
  unfold parse_command_line. rewrite Hg.
  destruct opts as [| p opts]; [congruence |].
  unfold lift. cbn [bind List.length Nat.eqb]. rewrite PyFacts.bind_ret_l.
  rewrite Hf. reflexivity.
Qed.

(** X4: when [getopt] returns options, none of them a help flag and every
    [-t]/[--time] value an integer for [int], the settings are those of the
    last occurrence of each option: the port is the value of the last
    [-p]/[--port] (8443 without one), connections are ignored exactly when a
    [-c]/[--ignore-connections] occurs, and the timeout is the integer of
    the last [-t]/[--time] ([None] without one). *)
Theorem last_occurrence_of_an_option_wins
    (sys_argv : list string) (opts : Getopt.optlist) (args : list string) :
  Getopt.getopt sys_argv shortopts longopts = Ok (opts, args) ->
  opts <> [] ->
  has_option "-h" "--help" opts = false ->
  Forall (time_value_ok int) opts ->
  exists g,
    parse_command_line int sys_argv = ([], Ok g)
    /\ port g = match last_value "-p" "--port" opts with
                | Some v => v
                | None => "8443"
                end
    /\ ignore_connections g = has_option "-c" "--ignore-connections" opts
    /\ match last_value "-t" "--time" opts with
       | Some v => exists n, int v = Some n /\ idle_timeout g = VInt n
       | None => idle_timeout g = VNone
       end.
Proof. apply parse_command_line_settings. Qed.

End CommandLineResult.

Section SessionLoopMore.

Variable check : list pyval -> M bool.
Variable ignore : bool.

Lemma session_body_passing (notebook : Session) (idle : bool) :
  session_passes check ignore notebook ->
  result (session_body check ignore notebook idle) = Ok idle.
Proof.
  intros [Hs [Hc Hr]]. unfold session_body. rewrite Hs.
  change ("idle" =? "idle") with true. cbv iota.
  destruct ignore; cbn [negb].
  - rewrite (result_bind_of_ok _ _ Hr). reflexivity.
  - rewrite (Hc eq_refl). cbn [Z.eqb].
    rewrite (result_bind_of_ok _ _ Hr). reflexivity.
Qed.

(** X5: the converse of the flag only falling: when every session of the
    list passes (idle kernel, no connection unless connections are ignored,
    idle check true) the loop completes and hands back the flag it was
    given, so a flag that starts true stays true. *)
Theorem passing_sessions_keep_the_flag (data : list Session) :
  Forall (session_passes check ignore) data ->
  forall idle, result (session_loop check ignore data idle) = Ok idle.
Proof.
  induction 1 as [| notebook rest Hp _ IH]; intros idle; [reflexivity |].
  cbn [session_loop].
  rewrite (result_bind_of_ok _ _ (@session_body_passing notebook idle Hp)).
  apply IH.
Qed.


Lemma session_body_not_reaching (notebook : Session) (idle : bool) :
  reaches_check ignore notebook = false ->
  result (session_body check ignore notebook idle) = Ok false.
Proof.
  unfold reaches_check, session_body.
  destruct (execution_state notebook =? "idle"); [| reflexivity].
  destruct ignore; cbn [andb orb negb]; [discriminate |].
  intros ->. reflexivity.
Qed.

End SessionLoopMore.

Section ScriptLoop.

Variable strptime : string -> option Datetime.datetime.
Variable now : Datetime.datetime.
Variable ignore : bool.

Lemma session_body_reaching (notebook : Session) (idle : bool) :
  reaches_check ignore notebook = true ->
  session_body (is_idle strptime now) ignore notebook idle = raise TypeError.
Proof.
  unfold reaches_check. intros H. apply andb_true_iff in H. destruct H as [Hs Hc].
  apply AutostopSpec.session_body_reaching_check_raises.
  - apply String.eqb_eq. exact Hs.
  - intros ->. cbn in Hc. apply Z.eqb_eq. exact Hc.
Qed.

Lemma script_loop_result (data : list Session) :
  forall idle,
    result (session_loop (is_idle strptime now) ignore data idle)
    = if existsb (reaches_check ignore) data then Raise TypeError
      else Ok (match data with [] => idle | _ => false end).
Proof.
  induction data as [| notebook rest IH]; intros idle; [reflexivity |].
  cbn [session_loop existsb].
  destruct (reaches_check ignore notebook) eqn:E.
  - rewrite session_body_reaching by exact E. reflexivity.
  - rewrite (result_bind_of_ok _ _
               (@session_body_not_reaching (is_idle strptime now) ignore
                  notebook idle E)).
    rewrite IH. cbn [orb].
    destruct (existsb (reaches_check ignore) rest); [reflexivity |].
    destruct rest; reflexivity.
Qed.

(** X7: the session loop as the script runs it, with its one-argument call
    of [is_idle].  If some session has an idle kernel and, unless
    connections are ignored, no connection, the loop ends with [TypeError];
    otherwise it completes, and over a non-empty list it leaves the flag
    false. *)
Theorem script_loop_raises_or_leaves_false (data : list Session) (idle : bool) :
  (existsb (reaches_check ignore) data = true ->
   result (session_loop (is_idle strptime now) ignore data idle) = Raise TypeError)
  /\ (existsb (reaches_check ignore) data = false -> data <> [] ->
      result (session_loop (is_idle strptime now) ignore data idle) = Ok false).
Proof.
  rewrite script_loop_result. split.
  - intros ->. reflexivity.
  - intros -> Hne. destruct data; [congruence | reflexivity].
Qed.

End ScriptLoop.

Section WholeRun.

Variable int : string -> option Z.
Variable strptime : string -> option Datetime.datetime.
Variable strftime : Datetime.datetime -> string.

Lemma trace_bind_of_ok {A B} (c : M A) (k : A -> M B) (a : A) :
  result c = Ok a -> trace (bind c k) = (trace c ++ trace (k a))%list.
Proof.
  destruct c as [t r]. cbn. intros ->. destruct (k a). reflexivity.
Qed.

(** The idle check of a run whose settings are [g]: the session loop when
    the sessions API answered with sessions, the instance-level check
    otherwise. *)
Lemma main_after_command_line (w : World) (g : Globals) :
  parse_command_line int (argv w) = ([], Ok g) ->
  eager_annotations w = false ->
  main int strptime strftime w
  = (emit (ReadFile "/opt/ml/metadata/resource-metadata.json") ;;;
     emit (HttpGet ("https://localhost:" ++ port g ++ "/api/sessions")) ;;;
     idle <- (if (0 <? List.length (sessions w))%nat
              then session_loop (is_idle strptime (now w))
                     (ignore_connections g) (sessions w) initial_idle
              else instance_check int strptime strftime w g
                     (resource_metadata w) initial_idle) ;;
     stop_decision (resource_metadata w) idle).
Proof.
  intros Hp He.
  unfold main, idle_determination. rewrite Hp.
  change (@pair (list event) (outcome Globals) [] (Ok g)) with (ret g).
  rewrite PyFacts.bind_ret_l.
  unfold def_get_notebook_timeout_tag. rewrite He, PyFacts.bind_ret_l.
  unfold get_notebook_resource. rewrite !bind_bind.
  apply bind_ext. intros _. rewrite PyFacts.bind_ret_l, bind_bind.
  apply bind_ext. intros _. cbv zeta. rewrite bind_bind.
  apply bind_ext. intros idle. rewrite PyFacts.bind_ret_l. reflexivity.
Qed.

Lemma for_opts_local (opts : Getopt.optlist) :
  forall g, Forall local_event (trace (for_opts int opts g)).
Proof.
  induction opts as [| [opt arg] rest IH]; intros g.
  - cbn. constructor.
  - cbn [for_opts]. AutostopSpec.quiet. apply IH.
Qed.

Lemma parse_command_line_local (sys_argv : list string) :
  Forall local_event (trace (parse_command_line int sys_argv)).
Proof.
  destruct (parse_command_line_outcomes int sys_argv)
    as [[g H] | [H | [H | H]]]; rewrite H; cbn; repeat constructor.
Qed.

Lemma is_idle_local (now : Datetime.datetime) (args : list pyval) :
  Forall local_event (trace (is_idle strptime now args)).
Proof.
  unfold is_idle, def2.
  destruct args as [| a [| b [| c l]]]; try (cbn; constructor).
  destruct a; try (cbn; constructor).
  destruct (strptime s); [| cbn; constructor].
  destruct b; try (cbn; constructor).
  AutostopSpec.quiet.
Qed.

Lemma session_body_local (check : list pyval -> M bool) (ignore : bool)
    (notebook : Session) (idle : bool) :
  (forall args, Forall local_event (trace (check args))) ->
  Forall local_event (trace (session_body check ignore notebook idle)).
Proof.
  intros Hc. unfold session_body. AutostopSpec.quiet; apply Hc.
Qed.

Lemma session_loop_local (check : list pyval -> M bool) (ignore : bool)
    (data : list Session) :
  (forall args, Forall local_event (trace (check args))) ->
  forall idle, Forall local_event (trace (session_loop check ignore data idle)).
Proof.
  intros Hc. induction data as [| notebook rest IH]; intros idle.
  - cbn. constructor.
  - cbn [session_loop]. apply AutostopSpec.forall_trace_bind.
    + apply session_body_local. exact Hc.
    + intros b. apply IH.
Qed.

Lemma forall_trace_bind_result {A B} (P : event -> Prop) (c : M A)
    (k : A -> M B) :
  Forall P (trace c) -> (forall a, result c = Ok a -> Forall P (trace (k a))) ->
  Forall P (trace (bind c k)).
Proof.
  destruct c as [t [a | e]]; cbn; intros Ht Hk; [| exact Ht].
  specialize (Hk a eq_refl). destruct (k a) as [t' r]. cbn in *.
  apply Forall_app. split; assumption.
Qed.




(** What an instance-level check that leaves the flag true went through. *)
Lemma instance_check_true (w : World) (g : Globals) (nr : NotebookResource) :
  result (instance_check int strptime strftime w g nr true) = Ok true ->
  exists t, idle_timeout g = VInt t /\ t <> 0%Z
    /\ result (is_idle strptime (now w)
                 [VStr (strftime (LastModifiedTime w)); VInt t]) = Ok true.
Proof.
  unfold instance_check. intros H.
  apply PyFacts.result_bind_ok in H. destruct H as [u [_ H]].
  apply PyFacts.result_bind_ok in H. destruct H as [u' [_ H]].
  apply PyFacts.result_bind_ok in H. destruct H as [v [Hv H]].
  apply PyFacts.result_bind_ok in H. destruct H as [r [Hr H]].
  destruct r; cbn in H; [| discriminate].
  destruct (truthy (idle_timeout g)) eqn:Et; cbn in Hv; [| discriminate].
  inversion Hv; subst v. rewrite Et in Hr. cbn [negb] in Hr.
  destruct (idle_timeout g) as [| t | s] eqn:Ei.
  - discriminate.
  - exists t. cbn in Et. apply negb_true_iff, Z.eqb_neq in Et. auto.
  - exfalso. unfold is_idle, def2 in Hr.
    destruct (strptime (strftime (LastModifiedTime w))); discriminate.
Qed.

Lemma main_cases (w : World) :
  (exists g, parse_command_line int (argv w) = ([], Ok g)
             /\ eager_annotations w = false)
  \/ (exists t e, main int strptime strftime w = (t, Raise e)
                  /\ Forall local_event t
                  /\ (e = SystemExit 0 \/ e = SystemExit 1 \/ e = ValueError
                      \/ e = TypeError)).
Proof.
  destruct (parse_command_line_outcomes int (argv w))
    as [[g H] | [H | [H | H]]].
  - destruct (eager_annotations w) eqn:He; [| left; eauto].
    right. exists [], TypeError.
    rewrite (AutostopSpec.eager_annotations_end_the_run int strptime strftime w H He).
    split; [reflexivity |]. split; [constructor |].
    right; right; right; reflexivity.
  - right. eexists _, _.
    rewrite (AutostopSpec.main_parse_raises int strptime strftime w H).
    split; [reflexivity |]. split; [repeat constructor | auto].
  - right. eexists _, _.
    rewrite (AutostopSpec.main_parse_raises int strptime strftime w H).
    split; [reflexivity |]. split; [repeat constructor | auto].
  - right. eexists _, _.
    rewrite (AutostopSpec.main_parse_raises int strptime strftime w H).
    split; [reflexivity |]. split; [repeat constructor | auto].
Qed.

(** X8: when the sessions API answers with at least one session the run
    stays on the instance: it only prints, reads the metadata file and
    queries the local endpoint.  It never calls
    [describe_notebook_instance], [list_tags] or [stop_notebook_instance]. *)
Theorem sessions_keep_the_run_on_the_instance (w : World) :
  sessions w <> [] ->
  Forall local_event (trace (main int strptime strftime w)).
Proof.
  intros Hne.
  destruct (main_cases w) as [[g [Hp He]] | [t [e [H [Ht _]]]]];
    [| rewrite H; exact Ht].
  rewrite (main_after_command_line w Hp He).
  destruct (sessions w) as [| notebook rest] eqn:Es; [congruence |].
  cbn [List.length Nat.ltb Nat.leb].
  apply AutostopSpec.forall_trace_bind; [repeat constructor | intros _].
  apply AutostopSpec.forall_trace_bind; [repeat constructor | intros _].
  apply forall_trace_bind_result.
  - apply session_loop_local. apply is_idle_local.
  - intros idle Hr. rewrite script_loop_result in Hr.
    destruct (existsb _ _); inversion Hr; subst.
    cbn. repeat constructor.
Qed.

(** X9: exactly when a run stops the instance.  It does so, and then the
    instance named in the metadata file, if and only if annotations are not
    evaluated eagerly, the sessions API answered with no session, the
    command line was read with a non-zero [-t]/[--time] value [t], and
    [is_idle] on the formatted [LastModifiedTime] with timeout [t] returned
    true.  No run without [-t], with [-t 0] or with a session stops it. *)
Theorem stop_exactly_on_the_timeout_path (w : World) (n : string) :
  In (StopNotebookInstance n) (trace (main int strptime strftime w))
  <-> n = name (resource_metadata w)
      /\ eager_annotations w = false
      /\ sessions w = []
      /\ exists g t,
           parse_command_line int (argv w) = ([], Ok g)
           /\ idle_timeout g = VInt t /\ t <> 0%Z
           /\ result (is_idle strptime (now w)
                        [VStr (strftime (LastModifiedTime w)); VInt t])
              = Ok true.
Proof.
  split.
  - intros H.
    assert (Hs : sessions w = [])
      by (eapply AutostopSpec.stop_requires_no_session; exact H).
    assert (Hn : n = name (resource_metadata w))
      by (apply AutostopSpec.main_stops_iff in H; apply H).
    destruct (main_cases w) as [[g [Hp He]] | [t [e [Hm [Ht _]]]]].
    + rewrite (main_after_command_line w Hp He), Hs in H.
      cbn [List.length Nat.ltb Nat.leb] in H.
      apply AutostopSpec.in_trace_bind in H.
      destruct H as [[H | []] | [u [_ H]]]; [discriminate |].
      apply AutostopSpec.in_trace_bind in H.
      destruct H as [[H | []] | [u' [_ H]]]; [discriminate |].
      apply AutostopSpec.in_trace_bind in H.
      destruct H as [H | [idle [Hr H]]].
      * exfalso. revert H. apply AutostopSpec.not_stop_in.
        apply AutostopSpec.instance_check_quiet.
      * apply AutostopSpec.stop_decision_stops in H. destruct H as [-> _].
        apply instance_check_true in Hr. destruct Hr as [t [Hi [Ht Hc]]].
        repeat split; auto. exists g, t. auto.
    + exfalso. rewrite Hm in H. cbn in H. rewrite Forall_forall in Ht.
      apply (Ht _ H).
  - intros [-> [He [Hs [g [t [Hp [Hi [Ht Hc]]]]]]]].
    rewrite (main_after_command_line w Hp He), Hs.
    cbn [List.length Nat.ltb Nat.leb].
    eapply AutostopSpec.in_trace_bind_ok; [reflexivity |].
    eapply AutostopSpec.in_trace_bind_ok; [reflexivity |].
    apply AutostopSpec.in_trace_bind_ok with (a := true).
    + rewrite (AutostopSpec.instance_check_cli_timeout int strptime strftime
                 w g (resource_metadata w) initial_idle Hi Ht).
      rewrite (@result_bind_of_ok _ _ (emit _) _ tt eq_refl).
      rewrite (@result_bind_of_ok _ _ (emit _) _ tt eq_refl).
      rewrite (result_bind_of_ok _ _ Hc). reflexivity.
    + cbn. auto.
Qed.




(** X12: the stop request is the last thing a run does.  A run that asks for
    the instance to be stopped asks once, right after printing
    [Closing idle notebook], does nothing after it and completes
    normally. *)
Theorem stop_is_the_last_thing_a_run_does (w : World) (n : string) :
  In (StopNotebookInstance n) (trace (main int strptime strftime w)) ->
  exists before,
    trace (main int strptime strftime w)
    = (before ++ [Print "Closing idle notebook"; StopNotebookInstance n])%list
    /\ Forall not_stop before
    /\ result (main int strptime strftime w) = Ok tt.
Proof.
  intros H. apply AutostopSpec.main_stops_iff in H. destruct H as [Hr ->].
  exists (trace (idle_determination int strptime strftime w)).
  unfold main. split; [| split].
  - rewrite (trace_bind_of_ok _ _ Hr). reflexivity.
  - apply AutostopSpec.idle_determination_quiet.
  - rewrite (result_bind_of_ok _ _ Hr). reflexivity.
Qed.

End WholeRun.

Section InstanceCheckRun.

Variable int : string -> option Z.


End InstanceCheckRun.


Section Verdicts.

Variable int : string -> option Z.
Variable strptime : string -> option Datetime.datetime.
Variable strftime : Datetime.datetime -> string.

Lemma float_gt_int_smaller (x : Q) (t t' : Z) :
  (t' <= t)%Z ->
  Datetime.float_gt_int x t = true -> Datetime.float_gt_int x t' = true.
Proof.
  intros Hle H. apply DatetimeFacts.float_gt_int_iff in H.
  apply DatetimeFacts.float_gt_int_iff.
  eapply Qle_lt_trans; [| exact H].
  rewrite <- Zle_Qle. exact Hle.
Qed.

(** X15: lowering the timeout never turns an idle verdict into a busy one:
    if [is_idle] returns true for a timestamp and a timeout, it returns true
    for the same timestamp, at the same time, and any smaller timeout. *)
Theorem idle_verdict_survives_a_smaller_timeout
    (now parsed : Datetime.datetime) (s : string) (t t' : Z) :
  strptime s = Some parsed ->
  (t' <= t)%Z ->
  result (is_idle strptime now [VStr s; VInt t]) = Ok true ->
  result (is_idle strptime now [VStr s; VInt t']) = Ok true.
Proof.
  intros Hp Hle H.
  rewrite (AutostopSpec.is_idle_parsed strptime now s t Hp) in H.
  rewrite (AutostopSpec.is_idle_parsed strptime now s t' Hp).
  inversion H as [H']. rewrite H'.
  rewrite (float_gt_int_smaller _ Hle H'). reflexivity.
Qed.

Lemma total_seconds_nonpositive (td : Z) :
  (td <= 0)%Z -> (Datetime.total_seconds td <= 0)%Q.
Proof.
  intros H. unfold Datetime.total_seconds, Datetime.true_divide.
  destruct (td =? 0)%Z eqn:E0; [apply Qle_refl |].
  apply Z.eqb_neq in E0.
  assert (Es : (td <? 0)%Z = true) by (apply Z.ltb_lt; lia).
  rewrite Es.
  set (e := (Datetime.binade (Z.abs td) 1000000 - 52)%Z).
  destruct (0 <=? e)%Z eqn:Ee.
  - apply Z.leb_le in Ee.
    assert (0 < 2 ^ e)%Z by (apply Z.pow_pos_nonneg; lia).
    assert (0 <= Datetime.round_half_even (Z.abs td) (1000000 * 2 ^ e))%Z
      by (apply DatetimeFacts.round_half_even_ge; lia).
    set (m := Datetime.round_half_even _ _) in *.
    unfold Qle, Qopp, inject_Z. cbn [Qnum Qden]. nia.
  - apply Z.leb_gt in Ee.
    assert (0 < 2 ^ (- e))%Z by (apply Z.pow_pos_nonneg; lia).
    assert (0 <= Datetime.round_half_even (Z.abs td * 2 ^ (- e)) 1000000)%Z
      by (apply DatetimeFacts.round_half_even_ge; nia).
    set (m := Datetime.round_half_even _ _) in *.
    unfold Qle, Qopp. cbn [Qnum Qden]. lia.
Qed.

(** X16: a last activity that is not in the past is never idle: when the
    parsed timestamp is at or after the current time and the timeout is not
    negative, [is_idle] prints the not-idle line and returns false. *)
Theorem activity_not_in_the_past_is_not_idle
    (now parsed : Datetime.datetime) (s : string) (t : Z) :
  strptime s = Some parsed ->
  (Datetime.sub now parsed <= 0)%Z ->
  (0 <= t)%Z ->
  is_idle strptime now [VStr s; VInt t]
  = ([Print (idle_message false parsed)], Ok false).
Proof.
  intros Hp Hs Ht. unfold is_idle, def2. rewrite Hp.
  assert (E : Datetime.float_gt_int
                (Datetime.total_seconds (Datetime.sub now parsed)) t = false).
  { unfold Datetime.float_gt_int. apply negb_false_iff. apply Qle_bool_iff.
    eapply Qle_trans; [apply total_seconds_nonpositive; exact Hs |].
    change 0%Q with (inject_Z 0). rewrite <- Zle_Qle. exact Ht. }
  rewrite E. reflexivity.
Qed.

(** X17: the tag and the default never decide.  Whenever the instance-level
    check completes, the timeout it used is the non-zero [-t]/[--time] value
    of the command line, the formatted [LastModifiedTime] parsed, and the
    flag it hands back is the flag it was given and'ed with [is_idle]'s
    verdict for that timeout. *)
Theorem instance_check_completes_only_with_the_cli_timeout
    (w : World) (g : Globals) (nr : NotebookResource) (idle b : bool) :
  result (instance_check int strptime strftime w g nr idle) = Ok b ->
  exists t parsed,
    idle_timeout g = VInt t /\ t <> 0%Z
    /\ strptime (strftime (LastModifiedTime w)) = Some parsed
    /\ b = Datetime.float_gt_int
             (Datetime.total_seconds (Datetime.sub (now w) parsed)) t
           && idle.
Proof.
  unfold instance_check. intros H.
  apply PyFacts.result_bind_ok in H. destruct H as [u [_ H]].
  apply PyFacts.result_bind_ok in H. destruct H as [u' [_ H]].
  apply PyFacts.result_bind_ok in H. destruct H as [v [Hv H]].
  apply PyFacts.result_bind_ok in H. destruct H as [r [Hr H]].
  destruct (truthy (idle_timeout g)) eqn:Et; cbn in Hv; [| discriminate].
  inversion Hv; subst v. rewrite Et in Hr. cbn [negb] in Hr.
  unfold is_idle, def2 in Hr.
  destruct (strptime (strftime (LastModifiedTime w))) as [parsed |];
    [| discriminate].
  destruct (idle_timeout g) as [| t | s] eqn:Ei; try discriminate.
  exists t, parsed. cbn in Et. apply negb_true_iff, Z.eqb_neq in Et.
  repeat split; auto.
  destruct (Datetime.float_gt_int _ _); cbn in Hr; inversion Hr; subst r;
    cbn in H; inversion H; reflexivity.
Qed.

End Verdicts.

End AutostopExtra.

(* ================================================================== *)
(** ** Further concrete runs *)
(* ================================================================== *)

Module ExtraRuns.

Import Py PyNotations Autostop AutostopViews Samples.
Local Open Scope string_scope.

Lemma first_timeout_tag_decides_witness :
  get_notebook_timeout_tag int_ascii [[mkTag "Owner" "mle"]] = ret VNone
  /\ get_notebook_timeout_tag int_ascii [sample_tags] = ret (VInt 600).
Proof.
  split.
  - apply (proj1 (AutostopExtra.first_timeout_tag_decides int_ascii)).
    intros t [<- | []]. discriminate.
  - apply (proj2 (AutostopExtra.first_timeout_tag_decides int_ascii)
             [mkTag "Owner" "mle"] (mkTag "AutoStopTimeOut" "600")
             [mkTag "AutoStopTimeOut" "never"]).
    + intros t [<- | []]. discriminate.
    + reflexivity.
Defined.

Lemma is_idle_raises_or_prints_one_line_witness :
  is_idle Datetime.strptime two_hours_later [VStr "yesterday"; VInt 60]
  = raise ValueError
  /\ is_idle Datetime.strptime two_hours_later
       [VStr "2024-01-01T00:00:00.000000Z"; VNone]
     = raise TypeError
  /\ exists parsed,
       Datetime.strptime "2024-01-01T00:00:00.000000Z" = Some parsed
       /\ trace (is_idle Datetime.strptime two_hours_later
                   [VStr "2024-01-01T00:00:00.000000Z"; VInt 60])
          = [Print (idle_message true parsed)].
Proof.
  destruct (AutostopExtra.is_idle_raises_or_prints_one_line
              Datetime.strptime two_hours_later) as [H1 [H2 H3]].
  split; [| split].
  - apply H1. vm_compute. reflexivity.
  - apply (H2 _ midnight). vm_compute. reflexivity.
  - apply H3. vm_compute. reflexivity.
Defined.

Lemma last_occurrence_of_an_option_wins_witness :
  exists g,
    parse_command_line int_ascii
      ["-p"; "9000"; "--time"; "60"; "-ct"; "90"; "--port=9001"]
    = ([], Ok g)
    /\ port g = "9001"
    /\ ignore_connections g = true
    /\ exists n, int_ascii "90" = Some n /\ idle_timeout g = VInt n.
Proof.
  exact (@AutostopExtra.last_occurrence_of_an_option_wins int_ascii
           ["-p"; "9000"; "--time"; "60"; "-ct"; "90"; "--port=9001"]
           [("-p", "9000"); ("--time", "60"); ("-c", ""); ("-t", "90");
            ("--port", "9001")]
           []
           eq_refl
           ltac:(discriminate)
           eq_refl
           ltac:(repeat constructor; unfold time_value_ok; cbn; discriminate)).
Defined.

Lemma passing_sessions_keep_the_flag_witness :
  result (session_loop always_idle false [quiet_session; quiet_session] true)
  = Ok true.
Proof.
  apply (@AutostopExtra.passing_sessions_keep_the_flag always_idle false
           [quiet_session; quiet_session]).
  repeat constructor.
Defined.

Lemma script_loop_raises_or_leaves_false_witness :
  result (session_loop (is_idle Datetime.strptime two_hours_later) false
            [busy_session; quiet_session] true) = Raise TypeError
  /\ result (session_loop (is_idle Datetime.strptime two_hours_later) false
               [busy_session; watched_session] true) = Ok false.
Proof.
  split.
  - apply (proj1 (AutostopExtra.script_loop_raises_or_leaves_false
                    Datetime.strptime two_hours_later false
                    [busy_session; quiet_session] true)).
    reflexivity.
  - apply (proj2 (AutostopExtra.script_loop_raises_or_leaves_false
                    Datetime.strptime two_hours_later false
                    [busy_session; watched_session] true)).
    + reflexivity.
    + discriminate.
Defined.

Lemma sessions_keep_the_run_on_the_instance_witness :
  Forall local_event (trace (run (world ["-c"] [busy_session; quiet_session] []))).
Proof.
  apply (@AutostopExtra.sessions_keep_the_run_on_the_instance
           int_ascii Datetime.strptime Datetime.strftime
           (world ["-c"] [busy_session; quiet_session] [])).
  discriminate.
Defined.


Lemma stop_is_the_last_thing_a_run_does_witness :
  exists before,
    trace (run (world ["-t"; "3600"] [] []))
    = (before ++ [Print "Closing idle notebook"; StopNotebookInstance "nb"])%list
    /\ Forall not_stop before
    /\ result (run (world ["-t"; "3600"] [] [])) = Ok tt.
Proof.
  apply (@AutostopExtra.stop_is_the_last_thing_a_run_does
           int_ascii Datetime.strptime Datetime.strftime
           (world ["-t"; "3600"] [] []) "nb").
  vm_compute. do 6 right. left. reflexivity.
Defined.



Lemma idle_verdict_survives_a_smaller_timeout_witness :
  result (is_idle Datetime.strptime two_hours_later
            [VStr "2024-01-01T00:00:00.000000Z"; VInt 60]) = Ok true.
Proof.
  apply (@AutostopExtra.idle_verdict_survives_a_smaller_timeout
           Datetime.strptime two_hours_later midnight
           "2024-01-01T00:00:00.000000Z" 7200%Z 60%Z).
  - reflexivity.
  - discriminate.
  - vm_compute. reflexivity.
Defined.

Lemma activity_not_in_the_past_is_not_idle_witness :
  is_idle Datetime.strptime midnight [VStr "2024-01-01T02:00:00.000005Z"; VInt 0]
  = ([Print (idle_message false two_hours_later)], Ok false).
Proof.
  apply (@AutostopExtra.activity_not_in_the_past_is_not_idle
           Datetime.strptime midnight two_hours_later
           "2024-01-01T02:00:00.000005Z" 0%Z).
  - vm_compute. reflexivity.
  - vm_compute. discriminate.
  - discriminate.
Defined.

Lemma instance_check_completes_only_with_the_cli_timeout_witness :
  exists t parsed,
    VInt 7201 = VInt t /\ t <> 0%Z
    /\ Datetime.strptime (Datetime.strftime midnight) = Some parsed
    /\ false = Datetime.float_gt_int
                 (Datetime.total_seconds (Datetime.sub two_hours_later parsed)) t
               && true.
Proof.
  apply (@AutostopExtra.instance_check_completes_only_with_the_cli_timeout
           int_ascii Datetime.strptime Datetime.strftime
           (world ["-t"; "7201"] [] []) (mkGlobals "8443" false (VInt 7201))
           notebook true false).
  vm_compute. reflexivity.
Defined.

End ExtraRuns.
